(** * Subscription-management handlers of OpenTAXII

    A shallow embedding of
    [opentaxii/taxii/services/handlers/subscription_request_handlers.py]
    and the properties its specification states about it.

    The handlers talk to a service object (the store of collections and
    subscriptions and the registry of polling endpoints).  The service is
    not part of the handlers' module, so it is an interface here: the
    handlers are written once, in a small monad that threads the store,
    records every call made on the service and carries the raised
    [StatusMessageException], and every theorem holds for every
    implementation of the interface.  An in-memory implementation, made
    from the specification, runs the handlers on concrete requests. *)

From Stdlib Require Import ZArith.
From stdpp Require Import base option strings list gmap pretty.

Set Default Proof Using "Type".
Local Open Scope string_scope.
Local Open Scope Z_scope.

(** ** Constants of libtaxii *)

Definition ACT_SUBSCRIBE : string := "SUBSCRIBE".
Definition ACT_UNSUBSCRIBE : string := "UNSUBSCRIBE".
Definition ACT_PAUSE : string := "PAUSE".
Definition ACT_RESUME : string := "RESUME".
Definition ACT_STATUS : string := "STATUS".

Definition ACT_TYPES_11 : list string :=
  [ACT_SUBSCRIBE; ACT_PAUSE; ACT_RESUME; ACT_UNSUBSCRIBE; ACT_STATUS].
Definition ACT_TYPES_10 : list string :=
  [ACT_SUBSCRIBE; ACT_UNSUBSCRIBE; ACT_STATUS].

Definition SD_ITEM : string := "ITEM".
Definition SD_SUPPORTED_CONTENT : string := "SUPPORTED_CONTENT".

Inductive StatusType :=
| ST_BAD_MESSAGE
| ST_NOT_FOUND
| ST_UNSUPPORTED_CONTENT_BINDING.

(** ** Python values the handlers test for truth *)

(** [x in t] for a tuple of strings. *)
Definition str_in (x : string) (t : list string) : bool :=
  existsb (String.eqb x) t.

Arguments str_in : simpl never.

(** Truth value of an attribute that is [None] or a string. *)
Definition truthy (s : option string) : bool :=
  match s with
  | Some (String _ _) => true
  | _ => false
  end.

(** Truth value of a list. *)
Definition nonempty {A} (l : list A) : bool :=
  match l with
  | [] => false
  | _ :: _ => true
  end.

(** The double-quote character of the error message. *)
Definition dquote : string := String (Ascii.ascii_of_nat 34) EmptyString.

(** ** Entities *)

Inductive SubscriptionStatus := ACTIVE | PAUSED | UNSUBSCRIBED.

#[global] Instance SubscriptionStatus_eq_dec : EqDecision SubscriptionStatus.
Proof. solve_decision. Defined.

(** Modelled from the spec: the entity classes (the entities module is
    outside the handlers' module).  Poll request parameters are a response
    type, absent in version 10, and the accepted content bindings; a
    collection has an identity, a name and its supported content formats; a
    subscription has an id, absent until the store assigns one, the id of
    its collection, a status and its poll request parameters. *)
Module PollRequestParametersEntity.
Record t := make {
  response_type : option string;
  content_bindings : list string;
}.
End PollRequestParametersEntity.

Module CollectionEntity.
Record t := make {
  id : Z;
  name : string;
  supported_content : list string;
}.
End CollectionEntity.

Module SubscriptionEntity.
(** Modelled from the spec: the subscription entity.  The handlers read the
    attributes [subscription_id], [collection_id], [status] and [params];
    the constructor's keyword [poll_request_params] is the attribute
    [params], and a keyword left out is [None]. *)
Record t := make {
  subscription_id : option string;
  collection_id : option Z;
  params : option PollRequestParametersEntity.t;
  status : SubscriptionStatus;
}.
End SubscriptionEntity.

Module PollingService.
Record t := make {
  address : string;
  protocol_bindings : list string;
}.
End PollingService.

(** ** Status signals *)

Inductive DetailValue :=
| DNone
| DStr (s : string)
| DList (l : list string).

Definition detail_of_option (s : option string) : DetailValue :=
  match s with
  | Some x => DStr x
  | None => DNone
  end.

(** Modelled from the spec: the status signal (the exceptions module is
    outside the handlers' module): a status code, an optional message, the
    id of the request it answers and an optional map of details. *)
Module StatusMessageException.
Record t := make {
  status_type : StatusType;
  message : option string;
  in_response_to : string;
  status_details : option (gmap string DetailValue);
}.
End StatusMessageException.

(** ** Messages *)

Module SubscriptionParameters.
Record t := make {
  response_type : string;
  content_bindings : list string;
}.
End SubscriptionParameters.

Module PollInstance.
Record t := make {
  poll_protocol : string;
  poll_address : string;
}.
End PollInstance.

Module SubscriptionInstance.
(** One wire instance; version 10 has neither [status] nor
    [subscription_parameters]. *)
Record t := make {
  subscription_id : option string;
  status : option SubscriptionStatus;
  subscription_parameters : option PollRequestParametersEntity.t;
  poll_instances : list PollInstance.t;
}.
End SubscriptionInstance.

Module tm11.
Module ManageCollectionSubscriptionRequest.
Record t := make {
  message_id : string;
  collection_name : string;
  action : string;
  subscription_id : option string;
  subscription_parameters : SubscriptionParameters.t;
}.
End ManageCollectionSubscriptionRequest.

Module ManageCollectionSubscriptionResponse.
Record t := make {
  message_id : string;
  in_response_to : string;
  collection_name : string;
  message : option string;
  subscription_instances : list SubscriptionInstance.t;
}.
End ManageCollectionSubscriptionResponse.
End tm11.

Module tm10.
Module ManageFeedSubscriptionRequest.
Record t := make {
  message_id : string;
  feed_name : string;
  action : string;
  subscription_id : option string;
}.
End ManageFeedSubscriptionRequest.

Module ManageFeedSubscriptionResponse.
Record t := make {
  message_id : string;
  in_response_to : string;
  feed_name : string;
  message : option string;
  subscription_instances : list SubscriptionInstance.t;
}.
End ManageFeedSubscriptionResponse.
End tm10.

(** The action functions are called with either kind of request. *)
Inductive Request :=
| Request11 (r : tm11.ManageCollectionSubscriptionRequest.t)
| Request10 (r : tm10.ManageFeedSubscriptionRequest.t).

Definition request_message_id (request : Request) : string :=
  match request with
  | Request11 r => tm11.ManageCollectionSubscriptionRequest.message_id r
  | Request10 r => tm10.ManageFeedSubscriptionRequest.message_id r
  end.

Definition request_subscription_id (request : Request) : option string :=
  match request with
  | Request11 r => tm11.ManageCollectionSubscriptionRequest.subscription_id r
  | Request10 r => tm10.ManageFeedSubscriptionRequest.subscription_id r
  end.

(** ** The service and the converters, as interfaces *)

(** What the handlers call on the service.  Lookups read the store,
    [create_subscription] and [update_subscription] may change it. *)
Record Service (Store : Type) := {
  get_collection : string -> Store -> option CollectionEntity.t;
  get_subscription : string -> Store -> option SubscriptionEntity.t;
  get_subscriptions : Store -> list SubscriptionEntity.t;
  create_subscription :
    SubscriptionEntity.t -> Store -> SubscriptionEntity.t * Store;
  update_subscription :
    SubscriptionEntity.t -> SubscriptionStatus -> Store ->
    SubscriptionEntity.t * Store;
  get_polling_services : CollectionEntity.t -> Store -> list PollingService.t;
  subscription_message : option string;
}.

Arguments get_collection {Store}.
Arguments get_subscription {Store}.
Arguments get_subscriptions {Store}.
Arguments create_subscription {Store}.
Arguments update_subscription {Store}.
Arguments get_polling_services {Store}.
Arguments subscription_message {Store}.

(** What the handlers call outside the service: the converters, the two
    content-binding methods of a collection and the id generator of the
    handler's base class. *)
Record Helpers := {
  parse_content_bindings : list string -> Z -> list string;
  get_matching_bindings : CollectionEntity.t -> list string -> list string;
  get_supported_content : CollectionEntity.t -> Z -> list string;
  subscription_to_subscription_instance :
    SubscriptionEntity.t -> list PollingService.t -> Z ->
    option PollRequestParametersEntity.t -> SubscriptionInstance.t;
  generate_id : string;
}.

(** ** The monad of a handler run *)

(** A call made on the service. *)
Inductive Event :=
| EvGetCollection (collection_name : string)
| EvGetSubscription (subscription_id : string)
| EvGetSubscriptions
| EvCreateSubscription (subscription : SubscriptionEntity.t)
| EvUpdateSubscription (subscription : SubscriptionEntity.t)
    (new_status : SubscriptionStatus)
| EvGetPollingServices (collection : CollectionEntity.t).

Definition is_write (e : Event) : bool :=
  match e with
  | EvCreateSubscription _ | EvUpdateSubscription _ _ => true
  | _ => false
  end.

(** The calls of a run that ask the service to change the store. *)
Definition writes (evs : list Event) : list Event := List.filter is_write evs.

(** Exceptions of the interpreter itself. *)
Inductive PyError := KeyError | AttributeError.

Inductive Outcome (A : Type) :=
| Return (a : A)
| Raise (e : StatusMessageException.t)
| Crash (e : PyError).

Arguments Return {A}.
Arguments Raise {A}.
Arguments Crash {A}.

(** The result of a run: what came out, the store afterwards and the calls
    made on the service, first call first. *)
Record Run (Store A : Type) := {
  outcome : Outcome A;
  store : Store;
  events : list Event;
}.

Arguments Build_Run {Store A}.
Arguments outcome {Store A}.
Arguments store {Store A}.
Arguments events {Store A}.

Definition M (Store A : Type) : Type := Store -> Run Store A.

Definition ret {Store A} (a : A) : M Store A :=
  fun st => Build_Run (Return a) st [].

Definition raise {Store A} (e : StatusMessageException.t) : M Store A :=
  fun st => Build_Run (Raise e) st [].

Definition crash {Store A} (e : PyError) : M Store A :=
  fun st => Build_Run (Crash e) st [].

Definition bind {Store A B} (m : M Store A) (k : A -> M Store B) : M Store B :=
  fun st =>
    let r := m st in
    match outcome r with
    | Return a =>
        let r' := k a (store r) in
        Build_Run (outcome r') (store r') (events r ++ events r')
    | Raise e => Build_Run (Raise e) (store r) (events r)
    | Crash e => Build_Run (Crash e) (store r) (events r)
    end.

(** A lookup: the store is read and left as it is. *)
Definition lookup_call {Store A} (ev : Event) (f : Store -> A) : M Store A :=
  fun st => Build_Run (Return (f st)) st [ev].

(** A write: the service returns the entity and the new store. *)
Definition write_call {Store A} (ev : Event) (f : Store -> A * Store)
  : M Store A :=
  fun st => Build_Run (Return (f st).1) (f st).2 [ev].

Declare Scope handler_scope.
Delimit Scope handler_scope with handler.
Notation "'let*' x ':=' m 'in' k" := (bind m (fun x => k))
  (at level 10, x name, m at level 100, k at level 200) : handler_scope.
Notation "m ';;;' k" := (bind m (fun _ => k))
  (at level 100, k at level 200, right associativity) : handler_scope.

(** ** The handlers *)

Module R11 := tm11.ManageCollectionSubscriptionRequest.
Module R10 := tm10.ManageFeedSubscriptionRequest.
Module E := StatusMessageException.

(** What an action function returns: one subscription or a list of them
    (the handlers test [isinstance(result, list)]). *)
Inductive ActionResult :=
| One (subscription : SubscriptionEntity.t)
| Many (subscriptions : list SubscriptionEntity.t).

Definition as_list (result : ActionResult) : list SubscriptionEntity.t :=
  match result with
  | Many l => l
  | One s => [s]
  end.

Section Handlers.
Context {Store : Type}.
Variable service : Service Store.
Variable helpers : Helpers.

Local Open Scope handler_scope.

Definition ActionFn : Type :=
  Request -> CollectionEntity.t -> option SubscriptionEntity.t -> Z ->
  M Store ActionResult.

Definition retrieve_collection (collection_name in_response_to : string)
  : M Store CollectionEntity.t :=
  let* collection :=
    lookup_call (EvGetCollection collection_name)
      (get_collection service collection_name) in
  match collection with
  | None =>
      let message := "The collection you requested was not found" in
      let details := {[ SD_ITEM := DStr collection_name ]} in
      raise (StatusMessageException.make ST_NOT_FOUND (Some message)
               in_response_to (Some details))
  | Some c => ret c
  end.

Definition action_subscribe : ActionFn :=
  fun request collection _ version =>
    let finish (response_type : option string)
               (supported_contents : list string) :=
      let poll_request_params :=
        PollRequestParametersEntity.make response_type supported_contents in
      let subscription :=
        SubscriptionEntity.make None (Some (CollectionEntity.id collection))
          (Some poll_request_params) ACTIVE in
      let* created :=
        write_call (EvCreateSubscription subscription)
          (create_subscription service subscription) in
      ret (One created) in
    if version =? 11 then
      match request with
      | Request11 r =>
          let params :=
            tm11.ManageCollectionSubscriptionRequest.subscription_parameters r in
          let response_type := SubscriptionParameters.response_type params in
          if (length (SubscriptionParameters.content_bindings params) =? 0)%nat
          then finish (Some response_type) []
          else
            let requested_bindings :=
              parse_content_bindings helpers
                (SubscriptionParameters.content_bindings params) version in
            let supported_contents :=
              get_matching_bindings helpers collection requested_bindings in
            if nonempty requested_bindings && negb (nonempty supported_contents)
            then
              let details :=
                {[ SD_SUPPORTED_CONTENT :=
                     DList (get_supported_content helpers collection version) ]} in
              raise (StatusMessageException.make
                       ST_UNSUPPORTED_CONTENT_BINDING None
                       (request_message_id request) (Some details))
            else finish (Some response_type) supported_contents
      | Request10 _ => crash AttributeError
      end
    else finish None [].

Definition action_unsubscribe : ActionFn :=
  fun request _ subscription _ =>
    match subscription with
    | Some s =>
        let* updated :=
          write_call (EvUpdateSubscription s UNSUBSCRIBED)
            (update_subscription service s UNSUBSCRIBED) in
        ret (One updated)
    | None =>
        ret (One (SubscriptionEntity.make (request_subscription_id request)
                    None None UNSUBSCRIBED))
    end.

Definition action_status : ActionFn :=
  fun _ _ subscription _ =>
    match subscription with
    | Some s => ret (One s)
    | None =>
        let* all := lookup_call EvGetSubscriptions (get_subscriptions service) in
        ret (Many all)
    end.

Definition action_pause : ActionFn :=
  fun _ _ subscription _ =>
    match subscription with
    | None => crash AttributeError
    | Some s =>
        if bool_decide (SubscriptionEntity.status s = PAUSED)
        then ret (One s)
        else
          let* updated :=
            write_call (EvUpdateSubscription s PAUSED)
              (update_subscription service s PAUSED) in
          ret (One updated)
    end.

Definition action_resume : ActionFn :=
  fun _ _ subscription _ =>
    match subscription with
    | None => crash AttributeError
    | Some s =>
        if bool_decide (SubscriptionEntity.status s ≠ PAUSED)
        then ret (One s)
        else
          let* updated :=
            write_call (EvUpdateSubscription s ACTIVE)
              (update_subscription service s ACTIVE) in
          ret (One updated)
    end.

Definition ACTIONS : list (string * ActionFn) :=
  [ (ACT_SUBSCRIBE, action_subscribe);
    (ACT_UNSUBSCRIBE, action_unsubscribe);
    (ACT_PAUSE, action_pause);
    (ACT_RESUME, action_resume);
    (ACT_STATUS, action_status) ].

(** [ACTIONS[key](...)]: a key that is not in the table is a [KeyError]. *)
Fixpoint getitem (table : list (string * ActionFn)) (key : string)
  : option ActionFn :=
  match table with
  | [] => None
  | (k, f) :: rest => if String.eqb key k then Some f else getitem rest key
  end.

Definition call_action (action : string) : ActionFn :=
  fun request collection subscription version =>
    match getitem ACTIONS action with
    | Some f => f request collection subscription version
    | None => crash KeyError
    end.

(** [service.get_subscription(request.subscription_id)] when the request
    has an id, [None] otherwise. *)
Definition find_subscription (subscription_id : option string)
  : M Store (option SubscriptionEntity.t) :=
  match subscription_id with
  | Some (String _ _ as sid) =>
      lookup_call (EvGetSubscription sid) (get_subscription service sid)
  | _ => ret None
  end.

(** [subscription and subscription.collection_id != collection.id] *)
Definition other_collection (subscription : option SubscriptionEntity.t)
    (collection : CollectionEntity.t) : bool :=
  match subscription with
  | Some s =>
      bool_decide (SubscriptionEntity.collection_id s
                   ≠ Some (CollectionEntity.id collection))
  | None => false
  end.

Definition validate_request11 (request : R11.t)
    (subscription : option SubscriptionEntity.t) : M Store unit :=
  let action := R11.action request in
  let error_message :=
    if negb (str_in action ACT_TYPES_11)
    then Some "The specified action was invalid"
    else if str_in action [ACT_UNSUBSCRIBE; ACT_PAUSE; ACT_RESUME]
            && negb (truthy (R11.subscription_id request))
    then Some ("Action " ++ dquote ++ action ++ dquote
               ++ " requires a subscription id")
    else None in
  if truthy error_message
  then raise (E.make ST_BAD_MESSAGE error_message
                (R11.message_id request) None)
  else
    if negb (bool_decide (is_Some subscription))
       && (str_in action [ACT_PAUSE; ACT_RESUME]
           || (String.eqb action ACT_STATUS
               && truthy (R11.subscription_id request)))
    then
      let details :=
        {[ SD_ITEM := detail_of_option (R11.subscription_id request) ]} in
      raise (E.make ST_NOT_FOUND None (R11.message_id request)
               (Some details))
    else ret ().

Definition handle_message11 (request : R11.t)
  : M Store tm11.ManageCollectionSubscriptionResponse.t :=
  let* subscription := find_subscription (R11.subscription_id request) in
  validate_request11 request subscription ;;;
  let* collection :=
    retrieve_collection (R11.collection_name request)
      (R11.message_id request) in
  if other_collection subscription collection
  then
    let details := {[ SD_ITEM := DStr (R11.collection_name request) ]} in
    raise (E.make ST_NOT_FOUND None (R11.message_id request)
             (Some details))
  else
    let response :=
      tm11.ManageCollectionSubscriptionResponse.make
        (generate_id helpers) (R11.message_id request)
        (CollectionEntity.name collection)
        (subscription_message service) in
    let* result :=
      call_action (R11.action request) (Request11 request) collection
        subscription 11 in
    let results := as_list result in
    let* polling_services :=
      lookup_call (EvGetPollingServices collection)
        (get_polling_services service collection) in
    ret (response
           (map (fun s =>
                   subscription_to_subscription_instance helpers s
                     polling_services 11 (SubscriptionEntity.params s))
              results)).

Definition validate_request10 (request : R10.t) : M Store unit :=
  let action := R10.action request in
  let error_message :=
    if negb (str_in action ACT_TYPES_10)
    then Some "The specified action was invalid"
    else if String.eqb action ACT_UNSUBSCRIBE
            && negb (truthy (R10.subscription_id request))
    then Some ("Action " ++ dquote ++ action ++ dquote
               ++ " requires a subscription id")
    else None in
  if truthy error_message
  then raise (E.make ST_BAD_MESSAGE error_message
                (R10.message_id request) None)
  else ret ().

Definition handle_message10 (request : R10.t)
  : M Store tm10.ManageFeedSubscriptionResponse.t :=
  validate_request10 request ;;;
  let* collection :=
    retrieve_collection (R10.feed_name request) (R10.message_id request) in
  let* subscription := find_subscription (R10.subscription_id request) in
  if other_collection subscription collection
  then
    let details := {[ SD_ITEM := DStr (R10.feed_name request) ]} in
    raise (E.make ST_NOT_FOUND None (R10.message_id request)
             (Some details))
  else
    let response :=
      tm10.ManageFeedSubscriptionResponse.make
        (generate_id helpers) (R10.message_id request)
        (CollectionEntity.name collection)
        (subscription_message service) in
    let* result :=
      call_action (R10.action request) (Request10 request) collection
        subscription 10 in
    let results := as_list result in
    let* polling_services :=
      lookup_call (EvGetPollingServices collection)
        (get_polling_services service collection) in
    ret (response
           (map (fun s =>
                   subscription_to_subscription_instance helpers s
                     polling_services 10 None)
              results)).

End Handlers.

(** ** The signals of the handlers, by name *)

Definition invalid_action (in_response_to : string) : E.t :=
  E.make ST_BAD_MESSAGE (Some "The specified action was invalid")
    in_response_to None.

Definition id_required (action in_response_to : string) : E.t :=
  E.make ST_BAD_MESSAGE
    (Some ("Action " ++ dquote ++ action ++ dquote
           ++ " requires a subscription id"))
    in_response_to None.

Definition not_found (item : DetailValue) (in_response_to : string) : E.t :=
  E.make ST_NOT_FOUND None in_response_to (Some {[ SD_ITEM := item ]}).

Definition unsupported_content_binding (supported : list string)
    (in_response_to : string) : E.t :=
  E.make ST_UNSUPPORTED_CONTENT_BINDING None in_response_to
    (Some {[ SD_SUPPORTED_CONTENT := DList supported ]}).

(** ** The responses of the handlers, by name *)

Definition response11 {Store} (service : Service Store) (helpers : Helpers)
    (request : R11.t) (collection : CollectionEntity.t)
    (instances : list SubscriptionInstance.t)
  : tm11.ManageCollectionSubscriptionResponse.t :=
  tm11.ManageCollectionSubscriptionResponse.make (generate_id helpers)
    (R11.message_id request) (CollectionEntity.name collection)
    (subscription_message service) instances.

Definition response10 {Store} (service : Service Store) (helpers : Helpers)
    (request : R10.t) (collection : CollectionEntity.t)
    (instances : list SubscriptionInstance.t)
  : tm10.ManageFeedSubscriptionResponse.t :=
  tm10.ManageFeedSubscriptionResponse.make (generate_id helpers)
    (R10.message_id request) (CollectionEntity.name collection)
    (subscription_message service) instances.

(** The entity that acknowledges an UNSUBSCRIBE of an unknown id. *)
Definition synthetic (subscription_id : option string) : SubscriptionEntity.t :=
  SubscriptionEntity.make subscription_id None None UNSUBSCRIBED.

(** The entity that SUBSCRIBE asks the service to create. *)
Definition new_subscription (collection : CollectionEntity.t)
    (response_type : option string) (accepted : list string)
  : SubscriptionEntity.t :=
  SubscriptionEntity.make None (Some (CollectionEntity.id collection))
    (Some (PollRequestParametersEntity.make response_type accepted)) ACTIVE.

(** ** The runs of an action, by name *)

(** The subscription is returned as it is; nothing is called. *)
Definition unchanged {Store} (s : SubscriptionEntity.t) (st : Store)
  : Run Store ActionResult :=
  Build_Run (Return (One s)) st [].

(** The service is asked once to update the subscription; what it returns
    is returned. *)
Definition updated {Store} (service : Service Store)
    (s : SubscriptionEntity.t) (new_status : SubscriptionStatus) (st : Store)
  : Run Store ActionResult :=
  Build_Run (Return (One (update_subscription service s new_status st).1))
    (update_subscription service s new_status st).2
    [EvUpdateSubscription s new_status].

(** The service is asked once to create the subscription; what it returns
    is returned. *)
Definition created {Store} (service : Service Store)
    (s : SubscriptionEntity.t) (st : Store) : Run Store ActionResult :=
  Build_Run (Return (One (create_subscription service s st).1))
    (create_subscription service s st).2 [EvCreateSubscription s].

(** ** An in-memory service *)

Module InMemory.

Record Store := make {
  collections : list CollectionEntity.t;
  subscriptions : gmap string SubscriptionEntity.t;
  next_id : N;
  polling : list PollingService.t;
}.

Definition with_status (s : SubscriptionEntity.t)
    (new_status : SubscriptionStatus) : SubscriptionEntity.t :=
  SubscriptionEntity.make (SubscriptionEntity.subscription_id s)
    (SubscriptionEntity.collection_id s) (SubscriptionEntity.params s)
    new_status.

Definition save (s : SubscriptionEntity.t) (st : Store) : Store :=
  match SubscriptionEntity.subscription_id s with
  | Some sid =>
      make (collections st) (<[ sid := s ]> (subscriptions st))
        (next_id st) (polling st)
  | None => st
  end.

(** Modelled from the spec: the service object (the store of collections
    and subscriptions and the endpoint registry, outside the handlers'
    module).  Collections are found by name; a subscription is found by
    its id; [create_subscription] assigns the id and stores the entity;
    [update_subscription] changes the status only and stores the entity;
    nothing is ever deleted; every polling endpoint serves every
    collection. *)
Definition service (banner : option string) : Service Store := {|
  get_collection name st :=
    List.find (fun c => String.eqb (CollectionEntity.name c) name)
      (collections st);
  get_subscription sid st := subscriptions st !! sid;
  get_subscriptions st := (map_to_list (subscriptions st)).*2;
  create_subscription s st :=
    let sid := "subscription-" ++ pretty (next_id st) in
    let s' :=
      SubscriptionEntity.make (Some sid) (SubscriptionEntity.collection_id s)
        (SubscriptionEntity.params s) (SubscriptionEntity.status s) in
    (s', make (collections st) (<[ sid := s' ]> (subscriptions st))
           (N.succ (next_id st)) (polling st));
  update_subscription s new_status st :=
    let s' := with_status s new_status in (s', save s' st);
  get_polling_services _ st := polling st;
  subscription_message := banner;
|}.

Definition poll_instances (p : PollingService.t) : list PollInstance.t :=
  map (fun b => PollInstance.make b (PollingService.address p))
    (PollingService.protocol_bindings p).

(** Modelled from the spec: the converters module and the two
    content-binding methods of a collection entity (outside the handlers'
    module).  A raw binding is its format identifier; the matching
    bindings are the collection's supported formats that the client
    asked for, in the collection's order; the supported content is the
    collection's full list; an instance combines the subscription id,
    the status and the given parameters (version 11 only) and one poll
    descriptor per endpoint and protocol binding. *)
Definition helpers : Helpers := {|
  parse_content_bindings raw _ := raw;
  get_matching_bindings c requested :=
    List.filter (fun b => str_in b requested)
      (CollectionEntity.supported_content c);
  get_supported_content c _ := CollectionEntity.supported_content c;
  subscription_to_subscription_instance s polling_services version
      subscription_parameters :=
    SubscriptionInstance.make (SubscriptionEntity.subscription_id s)
      (if version =? 11 then Some (SubscriptionEntity.status s) else None)
      (if version =? 11 then subscription_parameters else None)
      (concat (map poll_instances polling_services));
  generate_id := "response";
|}.

(** The same helpers with another converter of subscriptions. *)
Definition helpers_with
    (converter :
       SubscriptionEntity.t -> list PollingService.t -> Z ->
       option PollRequestParametersEntity.t -> SubscriptionInstance.t)
  : Helpers := {|
  parse_content_bindings := parse_content_bindings helpers;
  get_matching_bindings := get_matching_bindings helpers;
  get_supported_content := get_supported_content helpers;
  subscription_to_subscription_instance := converter;
  generate_id := generate_id helpers;
|}.

(** The instances of the response a version-11 run ended with. *)
Definition instances11
    (run : Run Store tm11.ManageCollectionSubscriptionResponse.t)
  : option (list SubscriptionInstance.t) :=
  match outcome run with
  | Return response =>
      Some (tm11.ManageCollectionSubscriptionResponse.subscription_instances
              response)
  | _ => None
  end.

(** A store with two collections and one polling service. *)
Definition collection_X : CollectionEntity.t :=
  CollectionEntity.make 1 "X" ["A"; "B"].
Definition collection_Y : CollectionEntity.t :=
  CollectionEntity.make 2 "Y" ["A"].

Definition empty_store : Store :=
  make [collection_X; collection_Y] ∅ 0
    [PollingService.make "/poll" ["http"; "https"]].

Definition request11 (action : string) (collection_name : string)
    (subscription_id : option string) (content_bindings : list string)
  : R11.t :=
  R11.make "request" collection_name action subscription_id
    (SubscriptionParameters.make "FULL" content_bindings).

Definition request10 (action : string) (feed_name : string)
    (subscription_id : option string) : R10.t :=
  R10.make "request" feed_name action subscription_id.

Definition run11 (request : R11.t) (st : Store) :=
  handle_message11 (service None) helpers request st.
Definition run10 (request : R10.t) (st : Store) :=
  handle_message10 (service None) helpers request st.

(** The store after a version-11 SUBSCRIBE to [X] with formats [B; C]. *)
Definition subscribed_store : Store :=
  store (run11 (request11 ACT_SUBSCRIBE "X" None ["B"; "C"]) empty_store).

(** The subscription that SUBSCRIBE has stored. *)
Definition subscription_0 : SubscriptionEntity.t :=
  SubscriptionEntity.make (Some "subscription-0") (Some 1)
    (Some (PollRequestParametersEntity.make (Some "FULL") ["B"])) ACTIVE.

(** The stores after a PAUSE and after an UNSUBSCRIBE of it. *)
Definition paused_store : Store :=
  store (run11 (request11 ACT_PAUSE "X" (Some "subscription-0") [])
           subscribed_store).
Definition unsubscribed_store : Store :=
  store (run11 (request11 ACT_UNSUBSCRIBE "X" (Some "subscription-0") [])
           subscribed_store).

Definition paused_0 : SubscriptionEntity.t :=
  with_status subscription_0 PAUSED.
Definition unsubscribed_0 : SubscriptionEntity.t :=
  with_status subscription_0 UNSUBSCRIBED.

Definition stored_status (sid : string) (st : Store)
  : option SubscriptionStatus :=
  SubscriptionEntity.status <$> subscriptions st !! sid.

End InMemory.

(** ** Membership and truth tests *)

Lemma str_in_spec (x : string) (t : list string) : str_in x t = true ↔ x ∈ t.
Proof.
  unfold str_in. rewrite existsb_exists. split.
  - intros (y & Hy & Heq). apply String.eqb_eq in Heq. subst y.
    by apply list_elem_of_In.
  - intros Hx. exists x. split; [by apply list_elem_of_In | apply String.eqb_refl].
Qed.

Lemma str_in_false (x : string) (t : list string) : str_in x t = false ↔ x ∉ t.
Proof. rewrite <- str_in_spec. destruct (str_in x t); naive_solver. Qed.

Lemma truthy_Some (s : option string) :
  truthy s = true ↔ ∃ a rest, s = Some (String a rest).
Proof.
  destruct s as [[|a rest]|]; simpl; split; try done; eauto;
    intros (? & ? & ?); done.
Qed.

Lemma act_types_11_cases (action : string) :
  action ∈ ACT_TYPES_11 →
  action = ACT_SUBSCRIBE ∨ action = ACT_PAUSE ∨ action = ACT_RESUME
  ∨ action = ACT_UNSUBSCRIBE ∨ action = ACT_STATUS.
Proof. unfold ACT_TYPES_11. rewrite !elem_of_cons, elem_of_nil. tauto. Qed.

Lemma act_types_10_cases (action : string) :
  action ∈ ACT_TYPES_10 →
  action = ACT_SUBSCRIBE ∨ action = ACT_UNSUBSCRIBE ∨ action = ACT_STATUS.
Proof. unfold ACT_TYPES_10. rewrite !elem_of_cons, elem_of_nil. tauto. Qed.

Lemma needs_id_cases (action : string) :
  action ∈ [ACT_UNSUBSCRIBE; ACT_PAUSE; ACT_RESUME] →
  action = ACT_UNSUBSCRIBE ∨ action = ACT_PAUSE ∨ action = ACT_RESUME.
Proof. rewrite !elem_of_cons, elem_of_nil. tauto. Qed.

Lemma pause_resume_cases (action : string) :
  action ∈ [ACT_PAUSE; ACT_RESUME] → action = ACT_PAUSE ∨ action = ACT_RESUME.
Proof. rewrite !elem_of_cons, elem_of_nil. tauto. Qed.

(** ** Runs of the parts of a handler *)

Section Runs.
Context {Store : Type}.
Variable service : Service Store.
Variable helpers : Helpers.

Lemma bind_run {A B} (m : M Store A) (k : A -> M Store B) (st : Store) :
  bind m k st =
    match outcome (m st) with
    | Return a =>
        Build_Run (outcome (k a (store (m st)))) (store (k a (store (m st))))
          (events (m st) ++ events (k a (store (m st))))
    | Raise e => Build_Run (Raise e) (store (m st)) (events (m st))
    | Crash e => Build_Run (Crash e) (store (m st)) (events (m st))
    end.
Proof. reflexivity. Qed.

(** The lookup of the subscription always returns and reads only. *)
Lemma find_subscription_run (sid : option string) (st : Store) :
  ∃ found,
    outcome (find_subscription service sid st) = Return found
    ∧ store (find_subscription service sid st) = st
    ∧ (truthy sid = false → found = None
         ∧ events (find_subscription service sid st) = [])
    ∧ (∀ s, sid = Some s → truthy sid = true →
         found = get_subscription service s st
         ∧ events (find_subscription service sid st) = [EvGetSubscription s]).
Proof.
  destruct sid as [[|a rest]|]; simpl.
  - exists None. split_and!; try done.
  - exists (get_subscription service (String a rest) st).
    split_and!; try done. by intros s' [= <-] _.
  - exists None. split_and!; try done.
Qed.

Lemma find_subscription_events (sid : option string) (st : Store) :
  Forall (fun ev => is_write ev = false)
    (events (find_subscription service sid st)).
Proof. destruct sid as [[|a rest]|]; simpl; repeat constructor. Qed.

(** Validation makes no call on the service. *)
Lemma validate_request11_pure (request : R11.t)
    (subscription : option SubscriptionEntity.t) (st : Store) :
  store (validate_request11 request subscription st) = st
  ∧ events (validate_request11 request subscription st) = [].
Proof.
  unfold validate_request11.
  repeat match goal with |- context [if ?b then _ else _] => destruct b end;
    done.
Qed.

Lemma validate_request10_pure (request : R10.t) (st : Store) :
  store (validate_request10 request st) = st
  ∧ events (validate_request10 request st) = [].
Proof.
  unfold validate_request10.
  repeat match goal with |- context [if ?b then _ else _] => destruct b end;
    done.
Qed.

Lemma validate_request11_invalid (request : R11.t) subscription (st : Store) :
  R11.action request ∉ ACT_TYPES_11 →
  validate_request11 request subscription st
  = Build_Run (Raise (invalid_action (R11.message_id request))) st [].
Proof.
  intros H%str_in_false. unfold validate_request11. by rewrite H.
Qed.

Lemma validate_request11_no_id (request : R11.t) subscription (st : Store) :
  R11.action request ∈ [ACT_UNSUBSCRIBE; ACT_PAUSE; ACT_RESUME] →
  truthy (R11.subscription_id request) = false →
  validate_request11 request subscription st
  = Build_Run
      (Raise (id_required (R11.action request) (R11.message_id request)))
      st [].
Proof.
  intros Hact Hid. unfold validate_request11. rewrite Hid.
  apply needs_id_cases in Hact as [-> | [-> | ->]]; reflexivity.
Qed.

Lemma validate_request11_unknown (request : R11.t) (st : Store) :
  R11.action request ∈ [ACT_PAUSE; ACT_RESUME; ACT_STATUS] →
  truthy (R11.subscription_id request) = true →
  validate_request11 request None st
  = Build_Run
      (Raise (not_found (detail_of_option (R11.subscription_id request))
                (R11.message_id request)))
      st [].
Proof.
  intros Hact Hid. unfold validate_request11. rewrite Hid.
  rewrite !elem_of_cons, elem_of_nil in Hact.
  destruct Hact as [-> | [-> | [-> | []]]]; reflexivity.
Qed.

(** What validation has established when it returns. *)
Lemma validate_request11_Return (request : R11.t) subscription (st : Store) :
  outcome (validate_request11 request subscription st) = Return () →
  R11.action request ∈ ACT_TYPES_11
  ∧ (R11.action request ∈ [ACT_PAUSE; ACT_RESUME] → is_Some subscription).
Proof.
  unfold validate_request11.
  destruct (str_in (R11.action request) ACT_TYPES_11) eqn:Hlegal; [|done].
  apply str_in_spec in Hlegal. simpl.
  destruct (str_in (R11.action request) [ACT_UNSUBSCRIBE; ACT_PAUSE; ACT_RESUME]
            && negb (truthy (R11.subscription_id request))) eqn:Hid;
    simpl; [done|].
  destruct subscription as [s|]; simpl.
  - intros _. split; [done | by eauto].
  - destruct (str_in (R11.action request) [ACT_PAUSE; ACT_RESUME]) eqn:Hpr;
      simpl; [done|].
    apply str_in_false in Hpr. intros _. split; [done | by intros ?].
Qed.

(** Every failure of validation answers the request and is one of the two
    validation signals. *)
Lemma validate_request11_Raise (request : R11.t) subscription (st : Store)
    (e : E.t) :
  outcome (validate_request11 request subscription st) = Raise e →
  E.in_response_to e = R11.message_id request
  ∧ (E.status_type e = ST_BAD_MESSAGE ∨ E.status_type e = ST_NOT_FOUND).
Proof.
  unfold validate_request11.
  repeat match goal with |- context [if ?b then _ else _] => destruct b end;
    simpl; intros [= <-]; simpl; auto.
Qed.

Lemma validate_request10_Raise (request : R10.t) (st : Store) (e : E.t) :
  outcome (validate_request10 request st) = Raise e →
  E.in_response_to e = R10.message_id request
  ∧ E.status_type e = ST_BAD_MESSAGE.
Proof.
  unfold validate_request10.
  repeat match goal with |- context [if ?b then _ else _] => destruct b end;
    simpl; intros [= <-]; simpl; auto.
Qed.

Lemma validate_request_no_crash11 (request : R11.t) subscription (st : Store)
    (err : PyError) :
  outcome (validate_request11 request subscription st) ≠ Crash err.
Proof.
  unfold validate_request11.
  repeat match goal with |- context [if ?b then _ else _] => destruct b end;
    done.
Qed.

Lemma retrieve_collection_run (name in_response_to : string) (st : Store) :
  retrieve_collection service name in_response_to st =
    Build_Run
      match get_collection service name st with
      | Some c => Return c
      | None =>
          Raise (E.make ST_NOT_FOUND
                   (Some "The collection you requested was not found")
                   in_response_to (Some {[ SD_ITEM := DStr name ]}))
      end st [EvGetCollection name].
Proof.
  unfold retrieve_collection. rewrite bind_run. simpl.
  by destruct (get_collection service name st).
Qed.

(** The run of the version-11 handler, step by step: the lookup of the
    subscription, validation, the lookup of the collection, the check of
    the subscription's collection, the action, the polling services. *)
Lemma handle_message11_run (request : R11.t) (st : Store) :
  ∃ subscription,
    outcome (find_subscription service (R11.subscription_id request) st)
    = Return subscription
    ∧ handle_message11 service helpers request st =
      let lookups :=
        events (find_subscription service (R11.subscription_id request) st) in
      match outcome (validate_request11 request subscription st) with
      | Raise e => Build_Run (Raise e) st lookups
      | Crash err => Build_Run (Crash err) st lookups
      | Return _ =>
          let name := R11.collection_name request in
          match get_collection service name st with
          | None =>
              Build_Run
                (Raise (E.make ST_NOT_FOUND
                          (Some "The collection you requested was not found")
                          (R11.message_id request)
                          (Some {[ SD_ITEM := DStr name ]})))
                st (lookups ++ [EvGetCollection name])
          | Some collection =>
              if other_collection subscription collection
              then Build_Run
                     (Raise (not_found (DStr name) (R11.message_id request)))
                     st (lookups ++ [EvGetCollection name])
              else
                let act :=
                  call_action service helpers (R11.action request)
                    (Request11 request) collection subscription 11 st in
                match outcome act with
                | Return result =>
                    Build_Run
                      (Return
                         (tm11.ManageCollectionSubscriptionResponse.make
                            (generate_id helpers) (R11.message_id request)
                            (CollectionEntity.name collection)
                            (subscription_message service)
                            (map (fun s =>
                                    subscription_to_subscription_instance
                                      helpers s
                                      (get_polling_services service collection
                                         (store act))
                                      11 (SubscriptionEntity.params s))
                               (as_list result))))
                      (store act)
                      (lookups ++ [EvGetCollection name] ++ events act
                       ++ [EvGetPollingServices collection])
                | Raise e =>
                    Build_Run (Raise e) (store act)
                      (lookups ++ [EvGetCollection name] ++ events act)
                | Crash err =>
                    Build_Run (Crash err) (store act)
                      (lookups ++ [EvGetCollection name] ++ events act)
                end
          end
      end.
Proof.
  destruct (find_subscription_run (R11.subscription_id request) st)
    as (subscription & Hout & Hst & _).
  exists subscription. split; [done|].
  unfold handle_message11. rewrite bind_run, Hout, Hst.
  rewrite bind_run.
  destruct (validate_request11_pure request subscription st) as [Hvs Hve].
  rewrite Hvs, Hve.
  destruct (outcome (validate_request11 request subscription st))
    as [[]|e|err]; cbn zeta; rewrite ?app_nil_r; try done.
  rewrite bind_run, retrieve_collection_run. cbn [outcome store events].
  destruct (get_collection service (R11.collection_name request) st)
    as [collection|]; [|done].
  destruct (other_collection subscription collection); [done|].
  rewrite bind_run.
  by destruct (outcome (call_action _ _ _ _ _ _ _ _)).
Qed.

(** The run of the version-10 handler: validation comes first, then the
    lookup of the collection, then the lookup of the subscription. *)
Lemma handle_message10_run (request : R10.t) (st : Store) :
  ∃ subscription,
    outcome (find_subscription service (R10.subscription_id request) st)
    = Return subscription
    ∧ handle_message10 service helpers request st =
      match outcome (validate_request10 request st) with
      | Raise e => Build_Run (Raise e) st []
      | Crash err => Build_Run (Crash err) st []
      | Return _ =>
          let name := R10.feed_name request in
          match get_collection service name st with
          | None =>
              Build_Run
                (Raise (E.make ST_NOT_FOUND
                          (Some "The collection you requested was not found")
                          (R10.message_id request)
                          (Some {[ SD_ITEM := DStr name ]})))
                st [EvGetCollection name]
          | Some collection =>
              let lookups :=
                EvGetCollection name
                :: events (find_subscription service
                             (R10.subscription_id request) st) in
              if other_collection subscription collection
              then Build_Run
                     (Raise (not_found (DStr name) (R10.message_id request)))
                     st lookups
              else
                let act :=
                  call_action service helpers (R10.action request)
                    (Request10 request) collection subscription 10 st in
                match outcome act with
                | Return result =>
                    Build_Run
                      (Return
                         (tm10.ManageFeedSubscriptionResponse.make
                            (generate_id helpers) (R10.message_id request)
                            (CollectionEntity.name collection)
                            (subscription_message service)
                            (map (fun s =>
                                    subscription_to_subscription_instance
                                      helpers s
                                      (get_polling_services service collection
                                         (store act))
                                      10 None)
                               (as_list result))))
                      (store act)
                      (lookups ++ events act
                       ++ [EvGetPollingServices collection])
                | Raise e =>
                    Build_Run (Raise e) (store act) (lookups ++ events act)
                | Crash err =>
                    Build_Run (Crash err) (store act) (lookups ++ events act)
                end
          end
      end.
Proof.
  destruct (find_subscription_run (R10.subscription_id request) st)
    as (subscription & Hout & Hst & _).
  exists subscription. split; [done|].
  unfold handle_message10. rewrite bind_run.
  destruct (validate_request10_pure request st) as [Hvs Hve].
  rewrite Hvs, Hve.
  destruct (outcome (validate_request10 request st)) as [[]|e|err];
    cbn zeta; try done.
  rewrite bind_run, retrieve_collection_run. cbn [outcome store events].
  destruct (get_collection service (R10.feed_name request) st)
    as [collection|]; [|done].
  rewrite bind_run, Hout, Hst.
  destruct (other_collection subscription collection).
  { cbn [outcome store events raise app]. by rewrite app_nil_r. }
  rewrite bind_run.
  destruct (outcome (call_action _ _ _ _ _ _ _ _));
    cbn [outcome store events app]; done.
Qed.

End Runs.

(** ** Runs of validation and of the actions *)

Section ActionRuns.
Context {Store : Type}.
Variable service : Service Store.
Variable helpers : Helpers.

Lemma validate_request11_found (request : R11.t) (s : SubscriptionEntity.t)
    (st : Store) :
  R11.action request ∈ ACT_TYPES_11 →
  truthy (R11.subscription_id request) = true →
  validate_request11 request (Some s) st = Build_Run (Return ()) st [].
Proof.
  intros Hact Hid. unfold validate_request11. rewrite Hid.
  apply act_types_11_cases in Hact as [-> | [-> | [-> | [-> | ->]]]];
    reflexivity.
Qed.

Lemma validate_request11_unsubscribe (request : R11.t) subscription
    (st : Store) :
  R11.action request = ACT_UNSUBSCRIBE →
  truthy (R11.subscription_id request) = true →
  validate_request11 request subscription st = Build_Run (Return ()) st [].
Proof.
  intros Hact Hid. unfold validate_request11. rewrite Hact, Hid.
  by destruct subscription.
Qed.

Lemma validate_request10_legal (request : R10.t) (st : Store) :
  R10.action request ∈ ACT_TYPES_10 →
  (R10.action request = ACT_UNSUBSCRIBE →
   truthy (R10.subscription_id request) = true) →
  validate_request10 request st = Build_Run (Return ()) st [].
Proof.
  intros Hact Hid. unfold validate_request10.
  apply act_types_10_cases in Hact as [Hact | [Hact | Hact]];
    rewrite Hact in *; try reflexivity.
  by rewrite Hid.
Qed.

Lemma validate_request10_invalid (request : R10.t) (st : Store) :
  R10.action request ∉ ACT_TYPES_10 →
  validate_request10 request st
  = Build_Run (Raise (invalid_action (R10.message_id request))) st [].
Proof.
  intros H%str_in_false. unfold validate_request10. by rewrite H.
Qed.

Lemma validate_request10_no_id (request : R10.t) (st : Store) :
  R10.action request = ACT_UNSUBSCRIBE →
  truthy (R10.subscription_id request) = false →
  validate_request10 request st
  = Build_Run
      (Raise (id_required ACT_UNSUBSCRIBE (R10.message_id request))) st [].
Proof.
  intros Hact Hid. unfold validate_request10. by rewrite Hact, Hid.
Qed.

Lemma find_subscription_Some (sid : string) (st : Store) :
  truthy (Some sid) = true →
  find_subscription service (Some sid) st
  = Build_Run (Return (get_subscription service sid st)) st
      [EvGetSubscription sid].
Proof. by destruct sid. Qed.

Lemma find_subscription_falsy (sid : option string) (st : Store) :
  truthy sid = false →
  find_subscription service sid st = Build_Run (Return None) st [].
Proof. by destruct sid as [[|]|]. Qed.

(** The three ways [action_subscribe] can end. *)
Lemma action_subscribe_cases request collection subscription version
    (st : Store) :
  let run :=
    action_subscribe service helpers request collection subscription
      version st in
  (∃ e, run = Build_Run (Raise e) st []
        ∧ version = 11
        ∧ E.status_type e = ST_UNSUPPORTED_CONTENT_BINDING
        ∧ E.in_response_to e = request_message_id request)
  ∨ (run = Build_Run (Crash AttributeError) st []
     ∧ version = 11 ∧ ∃ r, request = Request10 r)
  ∨ (∃ s, run = Build_Run
                  (Return (One (create_subscription service s st).1))
                  (create_subscription service s st).2
                  [EvCreateSubscription s]).
Proof.
  unfold action_subscribe. simpl.
  destruct (Z.eqb_spec version 11) as [->|Hv].
  - destruct request as [r|r].
    + destruct (length _ =? 0)%nat.
      * right; right. eexists. reflexivity.
      * destruct (nonempty _ && negb (nonempty _)).
        -- left. eexists. split_and!; reflexivity.
        -- right; right. eexists. reflexivity.
    + right; left. eauto.
  - right; right. eexists. reflexivity.
Qed.

Lemma getitem_ACTIONS (action : string) :
  getitem (ACTIONS service helpers) action =
    if String.eqb action ACT_SUBSCRIBE
    then Some (action_subscribe service helpers)
    else if String.eqb action ACT_UNSUBSCRIBE
    then Some (action_unsubscribe service)
    else if String.eqb action ACT_PAUSE then Some (action_pause service)
    else if String.eqb action ACT_RESUME then Some (action_resume service)
    else if String.eqb action ACT_STATUS then Some (action_status service)
    else None.
Proof. reflexivity. Qed.

(** An action raises only when a version-11 SUBSCRIBE finds no supported
    content binding, and then nothing has been written. *)
Lemma call_action_Raise action request collection subscription version
    (st : Store) (e : E.t) :
  outcome (call_action service helpers action request collection
             subscription version st) = Raise e →
  action = ACT_SUBSCRIBE ∧ version = 11
  ∧ E.status_type e = ST_UNSUPPORTED_CONTENT_BINDING
  ∧ E.in_response_to e = request_message_id request
  ∧ call_action service helpers action request collection subscription
      version st = Build_Run (Raise e) st [].
Proof.
  unfold call_action. rewrite getitem_ACTIONS.
  destruct (String.eqb_spec action ACT_SUBSCRIBE) as [->|_].
  { destruct (action_subscribe_cases request collection subscription version st)
      as [(e' & -> & ? & ? & ?) | [[-> _] | (s & ->)]]; simpl; try done.
    by intros [= ->]. }
  destruct (String.eqb_spec action ACT_UNSUBSCRIBE) as [->|_].
  { unfold action_unsubscribe. by destruct subscription. }
  destruct (String.eqb_spec action ACT_PAUSE) as [->|_].
  { unfold action_pause. destruct subscription; [|done].
    by destruct (bool_decide _). }
  destruct (String.eqb_spec action ACT_RESUME) as [->|_].
  { unfold action_resume. destruct subscription; [|done].
    by destruct (bool_decide _). }
  destruct (String.eqb_spec action ACT_STATUS) as [->|_]; [|done].
  unfold action_status. by destruct subscription.
Qed.

(** An action crashes only on a key that is not in the table, on PAUSE or
    RESUME without a subscription, or on a version-11 SUBSCRIBE given a
    version-10 request. *)
Lemma call_action_Crash action request collection subscription version
    (st : Store) (err : PyError) :
  outcome (call_action service helpers action request collection
             subscription version st) = Crash err →
  action ∉ ACT_TYPES_11
  ∨ (action ∈ [ACT_PAUSE; ACT_RESUME] ∧ subscription = None)
  ∨ (version = 11 ∧ ∃ r, request = Request10 r).
Proof.
  unfold call_action. rewrite getitem_ACTIONS.
  destruct (String.eqb_spec action ACT_SUBSCRIBE) as [->|?].
  { destruct (action_subscribe_cases request collection subscription version st)
      as [(e' & -> & ? & ? & ?) | [[-> ?] | (s & ->)]]; simpl; try done.
    intros _. by right; right. }
  destruct (String.eqb_spec action ACT_UNSUBSCRIBE) as [->|?].
  { unfold action_unsubscribe. by destruct subscription. }
  destruct (String.eqb_spec action ACT_PAUSE) as [->|?].
  { unfold action_pause. destruct subscription.
    - by destruct (bool_decide _).
    - intros _. right; left. split; [|done]. set_solver. }
  destruct (String.eqb_spec action ACT_RESUME) as [->|?].
  { unfold action_resume. destruct subscription.
    - by destruct (bool_decide _).
    - intros _. right; left. split; [|done]. set_solver. }
  destruct (String.eqb_spec action ACT_STATUS) as [->|?].
  { unfold action_status. by destruct subscription. }
  intros _. left. intros Hin. apply act_types_11_cases in Hin.
  intuition congruence.
Qed.
Lemma call_action_subscribe :
  call_action service helpers ACT_SUBSCRIBE = action_subscribe service helpers.
Proof. reflexivity. Qed.

Lemma call_action_unsubscribe :
  call_action service helpers ACT_UNSUBSCRIBE = action_unsubscribe service.
Proof. reflexivity. Qed.

Lemma call_action_pause :
  call_action service helpers ACT_PAUSE = action_pause service.
Proof. reflexivity. Qed.

Lemma call_action_resume :
  call_action service helpers ACT_RESUME = action_resume service.
Proof. reflexivity. Qed.

Lemma call_action_status :
  call_action service helpers ACT_STATUS = action_status service.
Proof. reflexivity. Qed.

Lemma other_collection_same (s : SubscriptionEntity.t)
    (collection : CollectionEntity.t) :
  SubscriptionEntity.collection_id s = Some (CollectionEntity.id collection) →
  other_collection (Some s) collection = false.
Proof.
  intros H. unfold other_collection. apply bool_decide_eq_false.
  intros Hne. by apply Hne.
Qed.

Lemma other_collection_differs (s : SubscriptionEntity.t)
    (collection : CollectionEntity.t) :
  SubscriptionEntity.collection_id s ≠ Some (CollectionEntity.id collection) →
  other_collection (Some s) collection = true.
Proof. intros H. unfold other_collection. by apply bool_decide_eq_true. Qed.

Lemma action_unsubscribe_unknown request collection version (st : Store) :
  action_unsubscribe service request collection None version st
  = Build_Run (Return (One (synthetic (request_subscription_id request))))
      st [].
Proof. reflexivity. Qed.

Lemma action_unsubscribe_known request collection (s : SubscriptionEntity.t)
    version (st : Store) :
  action_unsubscribe service request collection (Some s) version st
  = Build_Run
      (Return (One (update_subscription service s UNSUBSCRIBED st).1))
      (update_subscription service s UNSUBSCRIBED st).2
      [EvUpdateSubscription s UNSUBSCRIBED].
Proof. reflexivity. Qed.

Lemma action_pause_run request collection (s : SubscriptionEntity.t) version
    (st : Store) :
  action_pause service request collection (Some s) version st
  = if bool_decide (SubscriptionEntity.status s = PAUSED)
    then Build_Run (Return (One s)) st []
    else Build_Run
           (Return (One (update_subscription service s PAUSED st).1))
           (update_subscription service s PAUSED st).2
           [EvUpdateSubscription s PAUSED].
Proof. unfold action_pause. by destruct (bool_decide _). Qed.

Lemma action_resume_run request collection (s : SubscriptionEntity.t) version
    (st : Store) :
  action_resume service request collection (Some s) version st
  = if bool_decide (SubscriptionEntity.status s ≠ PAUSED)
    then Build_Run (Return (One s)) st []
    else Build_Run
           (Return (One (update_subscription service s ACTIVE st).1))
           (update_subscription service s ACTIVE st).2
           [EvUpdateSubscription s ACTIVE].
Proof. unfold action_resume. by destruct (bool_decide _). Qed.

End ActionRuns.

(** ** The signals of the handlers *)

Section Signals.
Context {Store : Type}.
Variable service : Service Store.
Variable helpers : Helpers.

(** Every signal of the version-11 handler answers the request and leaves
    the store as it was; a BAD_MESSAGE comes right after the lookup of the
    subscription; an UNSUPPORTED_CONTENT_BINDING comes from SUBSCRIBE. *)
Lemma handle_message11_Raise (request : R11.t) (st : Store) (e : E.t) :
  outcome (handle_message11 service helpers request st) = Raise e →
  store (handle_message11 service helpers request st) = st
  ∧ E.in_response_to e = R11.message_id request
  ∧ Forall (fun ev => is_write ev = false)
      (events (handle_message11 service helpers request st))
  ∧ (E.status_type e = ST_BAD_MESSAGE →
     events (handle_message11 service helpers request st)
     = events (find_subscription service (R11.subscription_id request) st))
  ∧ (E.status_type e = ST_UNSUPPORTED_CONTENT_BINDING →
     R11.action request = ACT_SUBSCRIBE).
Proof.
  destruct (handle_message11_run service helpers request st)
    as (subscription & Hout & ->).
  pose proof (find_subscription_events service (R11.subscription_id request) st)
    as Hlook.
  cbn zeta.
  destruct (outcome (validate_request11 request subscription st))
    as [[]|e'|err] eqn:Hval.
  - destruct (get_collection service (R11.collection_name request) st)
      as [collection|].
    + destruct (other_collection subscription collection).
      * simpl. intros [= <-]. simpl. split_and!; try done.
        apply Forall_app. split; [done | by repeat constructor].
      * destruct (outcome (call_action _ _ _ _ _ _ _ _)) eqn:Hact;
          simpl; try done.
        intros [= ->].
        apply call_action_Raise in Hact as (Ha & _ & Hty & Hirt & Hrun).
        rewrite Hrun. simpl. split_and!; try done.
        -- rewrite ?app_nil_r. apply Forall_app. split; [done|].
           by repeat constructor.
        -- by rewrite Hty.
    + simpl. intros [= <-]. simpl. split_and!; try done.
      apply Forall_app. split; [done | by repeat constructor].
  - simpl. intros [= ->].
    apply validate_request11_Raise in Hval as [Hirt Hty].
    split_and!; try done. intros Hu. rewrite Hu in Hty. by destruct Hty.
  - done.
Qed.

(** The signals of the version-10 handler; a BAD_MESSAGE comes before any
    call on the service, and there is no UNSUPPORTED_CONTENT_BINDING. *)
Lemma handle_message10_Raise (request : R10.t) (st : Store) (e : E.t) :
  outcome (handle_message10 service helpers request st) = Raise e →
  store (handle_message10 service helpers request st) = st
  ∧ E.in_response_to e = R10.message_id request
  ∧ Forall (fun ev => is_write ev = false)
      (events (handle_message10 service helpers request st))
  ∧ (E.status_type e = ST_BAD_MESSAGE →
     events (handle_message10 service helpers request st) = [])
  ∧ E.status_type e ≠ ST_UNSUPPORTED_CONTENT_BINDING.
Proof.
  destruct (handle_message10_run service helpers request st)
    as (subscription & Hout & ->).
  pose proof (find_subscription_events service (R10.subscription_id request) st)
    as Hlook.
  cbn zeta.
  destruct (outcome (validate_request10 request st)) as [[]|e'|err] eqn:Hval.
  - destruct (get_collection service (R10.feed_name request) st)
      as [collection|].
    + destruct (other_collection subscription collection).
      * simpl. intros [= <-]. simpl. split_and!; try done.
        by constructor.
      * destruct (outcome (call_action _ _ _ _ _ _ _ _)) eqn:Hact;
          simpl; try done.
        intros [= ->].
        by apply call_action_Raise in Hact as (_ & ? & _).
    + simpl. intros [= <-]. simpl. split_and!; try done.
      by repeat constructor.
  - simpl. intros [= ->].
    apply validate_request10_Raise in Hval as [Hirt Hty].
    split_and!; try done. by rewrite Hty.
  - done.
Qed.

(** The version-11 handler ends in a response or in a signal. *)
Lemma handle_message11_no_crash (request : R11.t) (st : Store)
    (err : PyError) :
  outcome (handle_message11 service helpers request st) ≠ Crash err.
Proof.
  destruct (handle_message11_run service helpers request st)
    as (subscription & Hout & ->).
  cbn zeta.
  destruct (outcome (validate_request11 request subscription st))
    as [[]|e'|err'] eqn:Hval.
  - apply validate_request11_Return in Hval as [Hlegal Hsome].
    destruct (get_collection service (R11.collection_name request) st)
      as [collection|]; [|done].
    destruct (other_collection subscription collection); [done|].
    destruct (outcome (call_action _ _ _ _ _ _ _ _)) eqn:Hact;
      simpl; try done.
    apply call_action_Crash in Hact as [Hno | [[Hpr Hnone] | [_ [r Hr]]]].
    + done.
    + apply Hsome in Hpr as [s Hs]. congruence.
    + done.
  - done.
  - by apply validate_request_no_crash11 in Hval.
Qed.

(** The run of an UNSUBSCRIBE request that reaches the action. *)
Lemma handle_message11_unsubscribe (request : R11.t) (sid : string)
    (collection : CollectionEntity.t) (st : Store) :
  R11.action request = ACT_UNSUBSCRIBE →
  R11.subscription_id request = Some sid →
  truthy (Some sid) = true →
  get_collection service (R11.collection_name request) st = Some collection →
  other_collection (get_subscription service sid st) collection = false →
  handle_message11 service helpers request st
  = let act :=
      action_unsubscribe service (Request11 request) collection
        (get_subscription service sid st) 11 st in
    Build_Run
      (Return
         (response11 service helpers request collection
            (map (fun s =>
                    subscription_to_subscription_instance helpers s
                      (get_polling_services service collection (store act))
                      11 (SubscriptionEntity.params s))
               match outcome act with
               | Return result => as_list result
               | _ => []
               end)))
      (store act)
      ([EvGetSubscription sid; EvGetCollection (R11.collection_name request)]
       ++ events act ++ [EvGetPollingServices collection]).
Proof.
  intros Hact Hsid Hid Hcoll Hsame.
  destruct (handle_message11_run service helpers request st)
    as (subscription & Hout & ->).
  rewrite Hsid in *. rewrite find_subscription_Some in * by done.
  simpl in Hout. injection Hout as <-.
  rewrite validate_request11_unsubscribe by (by rewrite ?Hsid).
  cbn [outcome events]. cbn zeta. rewrite Hcoll, Hsame, Hact.
  rewrite call_action_unsubscribe.
  by destruct (get_subscription service sid st).
Qed.

Lemma handle_message10_unsubscribe (request : R10.t) (sid : string)
    (collection : CollectionEntity.t) (st : Store) :
  R10.action request = ACT_UNSUBSCRIBE →
  R10.subscription_id request = Some sid →
  truthy (Some sid) = true →
  get_collection service (R10.feed_name request) st = Some collection →
  other_collection (get_subscription service sid st) collection = false →
  handle_message10 service helpers request st
  = let act :=
      action_unsubscribe service (Request10 request) collection
        (get_subscription service sid st) 10 st in
    Build_Run
      (Return
         (response10 service helpers request collection
            (map (fun s =>
                    subscription_to_subscription_instance helpers s
                      (get_polling_services service collection (store act))
                      10 None)
               match outcome act with
               | Return result => as_list result
               | _ => []
               end)))
      (store act)
      ([EvGetCollection (R10.feed_name request); EvGetSubscription sid]
       ++ events act ++ [EvGetPollingServices collection]).
Proof.
  intros Hact Hsid Hid Hcoll Hsame.
  destruct (handle_message10_run service helpers request st)
    as (subscription & Hout & ->).
  rewrite Hsid in *. rewrite find_subscription_Some in * by done.
  simpl in Hout. injection Hout as <-.
  rewrite validate_request10_legal;
    [| rewrite Hact; compute_done | by rewrite Hsid].
  cbn [outcome events]. cbn zeta. rewrite Hcoll, Hsame, Hact.
  rewrite call_action_unsubscribe.
  by destruct (get_subscription service sid st).
Qed.

End Signals.

(** ** The lifecycle transitions *)

Section Transitions.
Context {Store : Type}.
Variable service : Service Store.

(** C4.  PAUSE of a subscription that is PAUSED and RESUME of one that is
    not PAUSED return the subscription as it is and call nothing on the
    service; otherwise PAUSE asks the service to update the subscription
    to PAUSED and RESUME to ACTIVE, once, and returns what the service
    returns.  Each returns one subscription, never a list. *)
Theorem pause_resume_idempotent request collection
    (s : SubscriptionEntity.t) version (st : Store) :
  (SubscriptionEntity.status s = PAUSED →
   action_pause service request collection (Some s) version st
   = unchanged s st)
  ∧ (SubscriptionEntity.status s ≠ PAUSED →
     action_resume service request collection (Some s) version st
     = unchanged s st)
  ∧ (SubscriptionEntity.status s ≠ PAUSED →
     action_pause service request collection (Some s) version st
     = updated service s PAUSED st)
  ∧ (SubscriptionEntity.status s = PAUSED →
     action_resume service request collection (Some s) version st
     = updated service s ACTIVE st).
Proof.
  rewrite action_pause_run, action_resume_run.
  split_and!; intros Hs.
  - by rewrite bool_decide_eq_true_2.
  - by rewrite bool_decide_eq_true_2.
  - by rewrite bool_decide_eq_false_2.
  - rewrite bool_decide_eq_false_2; [done|]. by intros Hne.
Qed.

(** C2, as the code has it.  RESUME of an UNSUBSCRIBED subscription
    returns it as it is and calls nothing on the service.  PAUSE of an
    UNSUBSCRIBED subscription asks the service to update it to PAUSED and
    returns what the service returns. *)
Theorem unsubscribed_resume_noop_pause_updates request collection
    (s : SubscriptionEntity.t) version (st : Store) :
  SubscriptionEntity.status s = UNSUBSCRIBED →
  action_resume service request collection (Some s) version st
  = unchanged s st
  ∧ action_pause service request collection (Some s) version st
    = updated service s PAUSED st.
Proof.
  intros Hs. rewrite action_pause_run, action_resume_run, Hs.
  by rewrite bool_decide_eq_true_2, bool_decide_eq_false_2.
Qed.

End Transitions.

(** ** UNSUBSCRIBE *)

Section Unsubscribe.
Context {Store : Type}.
Variable service : Service Store.
Variable helpers : Helpers.

(** C5.  UNSUBSCRIBE of an id the store does not know is answered: the
    action returns one subscription, made on the spot, with the id of the
    request and status UNSUBSCRIBED, and calls nothing on the service; the
    response of either handler carries the one instance made from it, the
    store is as before and only lookups were made.  UNSUBSCRIBE of a
    known subscription asks the service to update it to UNSUBSCRIBED and
    returns, and answers with, the one subscription the service returns. *)
Theorem unsubscribe_unknown_id_is_acknowledged (sid : string) (st : Store)
    (collection : CollectionEntity.t) :
  (∀ request version,
     action_unsubscribe service request collection None version st
     = unchanged
         (SubscriptionEntity.make (request_subscription_id request) None
            None UNSUBSCRIBED)
         st)
  ∧ (∀ request s version,
       action_unsubscribe service request collection (Some s) version st
       = updated service s UNSUBSCRIBED st)
  ∧ (∀ request : R11.t,
       R11.action request = ACT_UNSUBSCRIBE →
       R11.subscription_id request = Some sid →
       truthy (Some sid) = true →
       get_collection service (R11.collection_name request) st
       = Some collection →
       (get_subscription service sid st = None →
        handle_message11 service helpers request st
        = Build_Run
            (Return
               (response11 service helpers request collection
                  [subscription_to_subscription_instance helpers
                     (synthetic (Some sid))
                     (get_polling_services service collection st) 11 None]))
            st
            [EvGetSubscription sid;
             EvGetCollection (R11.collection_name request);
             EvGetPollingServices collection])
       ∧ (∀ s,
            get_subscription service sid st = Some s →
            SubscriptionEntity.collection_id s
            = Some (CollectionEntity.id collection) →
            handle_message11 service helpers request st
            = Build_Run
                (Return
                   (response11 service helpers request collection
                      [subscription_to_subscription_instance helpers
                         (update_subscription service s UNSUBSCRIBED st).1
                         (get_polling_services service collection
                            (update_subscription service s UNSUBSCRIBED st).2)
                         11
                         (SubscriptionEntity.params
                            (update_subscription service s UNSUBSCRIBED
                               st).1)]))
                (update_subscription service s UNSUBSCRIBED st).2
                [EvGetSubscription sid;
                 EvGetCollection (R11.collection_name request);
                 EvUpdateSubscription s UNSUBSCRIBED;
                 EvGetPollingServices collection]))
  ∧ (∀ request : R10.t,
       R10.action request = ACT_UNSUBSCRIBE →
       R10.subscription_id request = Some sid →
       truthy (Some sid) = true →
       get_collection service (R10.feed_name request) st = Some collection →
       (get_subscription service sid st = None →
        handle_message10 service helpers request st
        = Build_Run
            (Return
               (response10 service helpers request collection
                  [subscription_to_subscription_instance helpers
                     (synthetic (Some sid))
                     (get_polling_services service collection st) 10 None]))
            st
            [EvGetCollection (R10.feed_name request);
             EvGetSubscription sid;
             EvGetPollingServices collection])
       ∧ (∀ s,
            get_subscription service sid st = Some s →
            SubscriptionEntity.collection_id s
            = Some (CollectionEntity.id collection) →
            handle_message10 service helpers request st
            = Build_Run
                (Return
                   (response10 service helpers request collection
                      [subscription_to_subscription_instance helpers
                         (update_subscription service s UNSUBSCRIBED st).1
                         (get_polling_services service collection
                            (update_subscription service s UNSUBSCRIBED st).2)
                         10 None]))
                (update_subscription service s UNSUBSCRIBED st).2
                [EvGetCollection (R10.feed_name request);
                 EvGetSubscription sid;
                 EvUpdateSubscription s UNSUBSCRIBED;
                 EvGetPollingServices collection])).
Proof.
  split_and!; try done.
  - intros request Hact Hsid Hid Hcoll. split.
    + intros Hnone.
      rewrite (handle_message11_unsubscribe service helpers request sid
                 collection st) by (by rewrite ?Hnone).
      rewrite Hnone. simpl. by rewrite Hsid.
    + intros s Hs Hsame.
      rewrite (handle_message11_unsubscribe service helpers request sid
                 collection st); try done.
      * by rewrite Hs.
      * rewrite Hs. by apply other_collection_same.
  - intros request Hact Hsid Hid Hcoll. split.
    + intros Hnone.
      rewrite (handle_message10_unsubscribe service helpers request sid
                 collection st) by (by rewrite ?Hnone).
      rewrite Hnone. simpl. by rewrite Hsid.
    + intros s Hs Hsame.
      rewrite (handle_message10_unsubscribe service helpers request sid
                 collection st); try done.
      * by rewrite Hs.
      * rewrite Hs. by apply other_collection_same.
Qed.

End Unsubscribe.

(** ** Validation *)

Section Validation.
Context {Store : Type}.
Variable service : Service Store.
Variable helpers : Helpers.

(** C1.  A version-11 request whose action is not a version-11 action is
    answered with BAD_MESSAGE; so is UNSUBSCRIBE, PAUSE or RESUME without
    a subscription id; PAUSE, RESUME or STATUS with the id of a
    subscription that is not found is answered with NOT_FOUND and the
    detail [{ITEM: subscription_id}].  Every signal of the handler
    answers the request's message id, and a run that ends in a signal
    has no response. *)
Theorem validate_request11_signals (request : R11.t) (st : Store) :
  (R11.action request ∉ ACT_TYPES_11 →
   outcome (handle_message11 service helpers request st)
   = Raise (E.make ST_BAD_MESSAGE (Some "The specified action was invalid")
              (R11.message_id request) None))
  ∧ (R11.action request ∈ [ACT_UNSUBSCRIBE; ACT_PAUSE; ACT_RESUME] →
     truthy (R11.subscription_id request) = false →
     outcome (handle_message11 service helpers request st)
     = Raise (E.make ST_BAD_MESSAGE
                (Some ("Action " ++ dquote ++ R11.action request ++ dquote
                       ++ " requires a subscription id"))
                (R11.message_id request) None))
  ∧ (∀ sid,
       R11.action request ∈ [ACT_PAUSE; ACT_RESUME; ACT_STATUS] →
       R11.subscription_id request = Some sid →
       truthy (Some sid) = true →
       get_subscription service sid st = None →
       outcome (handle_message11 service helpers request st)
       = Raise (E.make ST_NOT_FOUND None (R11.message_id request)
                  (Some {[ SD_ITEM := DStr sid ]})))
  ∧ (∀ e,
       outcome (handle_message11 service helpers request st) = Raise e →
       E.in_response_to e = R11.message_id request
       ∧ ∀ response,
           outcome (handle_message11 service helpers request st)
           ≠ Return response).
Proof.
  destruct (handle_message11_run service helpers request st)
    as (subscription & Hout & Hrun).
  split_and!.
  - intros Hact. rewrite Hrun.
    by rewrite validate_request11_invalid.
  - intros Hact Hid. rewrite Hrun.
    by rewrite validate_request11_no_id.
  - intros sid Hact Hsid Hid Hnone. rewrite Hrun.
    rewrite Hsid in Hout. rewrite find_subscription_Some in Hout by done.
    simpl in Hout. rewrite Hnone in Hout. injection Hout as <-.
    rewrite validate_request11_unknown by (by rewrite ?Hsid).
    by rewrite Hsid.
  - intros e He. split.
    + by apply handle_message11_Raise in He as (_ & ? & _).
    + intros response. by rewrite He.
Qed.

(** C8.  The version-10 handler answers PAUSE and RESUME with
    BAD_MESSAGE, having called nothing on the service, while version-11
    validation accepts the same action with the same subscription id.
    In version 10 UNSUBSCRIBE without a subscription id is answered with
    BAD_MESSAGE and SUBSCRIBE and STATUS are accepted with or without
    one; a BAD_MESSAGE of the version-10 handler comes before any call on
    the service. *)
Theorem version10_rejects_pause_and_resume (st : Store) :
  (∀ request : R10.t,
     R10.action request ∈ [ACT_PAUSE; ACT_RESUME] →
     handle_message10 service helpers request st
     = Build_Run
         (Raise (E.make ST_BAD_MESSAGE
                   (Some "The specified action was invalid")
                   (R10.message_id request) None))
         st [])
  ∧ (∀ (request : R11.t) subscription,
       R11.action request ∈ [ACT_PAUSE; ACT_RESUME] →
       truthy (R11.subscription_id request) = true →
       R11.action request ∈ ACT_TYPES_11
       ∧ validate_request11 request (Some subscription) st
         = Build_Run (Return ()) st [])
  ∧ (∀ request : R10.t,
       R10.action request = ACT_UNSUBSCRIBE →
       truthy (R10.subscription_id request) = false →
       handle_message10 service helpers request st
       = Build_Run
           (Raise (E.make ST_BAD_MESSAGE
                     (Some ("Action " ++ dquote ++ ACT_UNSUBSCRIBE ++ dquote
                            ++ " requires a subscription id"))
                     (R10.message_id request) None))
           st [])
  ∧ (∀ request : R10.t,
       R10.action request ∈ [ACT_SUBSCRIBE; ACT_STATUS] →
       validate_request10 request st = Build_Run (Return ()) st [])
  ∧ (∀ (request : R10.t) e,
       outcome (handle_message10 service helpers request st) = Raise e →
       E.status_type e = ST_BAD_MESSAGE →
       events (handle_message10 service helpers request st) = []
       ∧ store (handle_message10 service helpers request st) = st).
Proof.
  split_and!.
  - intros request Hact.
    destruct (handle_message10_run service helpers request st)
      as (subscription & _ & ->).
    rewrite validate_request10_invalid; [done|].
    apply pause_resume_cases in Hact as [-> | ->]; compute_done.
  - intros request subscription Hact Hid.
    assert (R11.action request ∈ ACT_TYPES_11) as Hlegal
      by (apply pause_resume_cases in Hact as [-> | ->]; compute_done).
    split; [done|]. by apply validate_request11_found.
  - intros request Hact Hid.
    destruct (handle_message10_run service helpers request st)
      as (subscription & _ & ->).
    by rewrite validate_request10_no_id.
  - intros request Hact. apply validate_request10_legal.
    + rewrite !elem_of_cons, elem_of_nil in Hact.
      destruct Hact as [-> | [-> | []]]; compute_done.
    + intros Hu. rewrite Hu in Hact. exfalso.
      rewrite !elem_of_cons, elem_of_nil in Hact.
      by destruct Hact as [? | [? | []]].
  - intros request e He Hbad.
    apply handle_message10_Raise in He as (? & _ & _ & Hev & _). auto.
Qed.

(** C3, as the code has it.  The version-10 handler raises BAD_MESSAGE
    before any call on the service.  The version-11 handler looks the
    subscription up before it validates: a BAD_MESSAGE comes before any
    lookup of a collection and before any write, after no call at all
    when the request has no subscription id, and after the one lookup of
    the subscription when it has one.  The store is as before in both
    versions. *)
Theorem bad_message_store_access (st : Store) :
  (∀ (request : R10.t) e,
     outcome (handle_message10 service helpers request st) = Raise e →
     E.status_type e = ST_BAD_MESSAGE →
     events (handle_message10 service helpers request st) = []
     ∧ store (handle_message10 service helpers request st) = st)
  ∧ (∀ (request : R11.t) e,
       outcome (handle_message11 service helpers request st) = Raise e →
       E.status_type e = ST_BAD_MESSAGE →
       store (handle_message11 service helpers request st) = st
       ∧ (truthy (R11.subscription_id request) = false →
          events (handle_message11 service helpers request st) = [])
       ∧ (∀ sid,
            R11.subscription_id request = Some sid →
            truthy (Some sid) = true →
            events (handle_message11 service helpers request st)
            = [EvGetSubscription sid])).
Proof.
  split.
  - intros request e He Hbad.
    apply handle_message10_Raise in He as (? & _ & _ & Hev & _). auto.
  - intros request e He Hbad.
    apply handle_message11_Raise in He as (? & _ & _ & Hev & _).
    rewrite (Hev Hbad). split_and!; [done| |].
    + intros Hid. by rewrite find_subscription_falsy.
    + intros sid Hsid Hid. rewrite Hsid. by rewrite find_subscription_Some.
Qed.

(** C10.  In the version-11 handler validation returns for PAUSE or
    RESUME only with a subscription at hand, so the transition reads the
    status of a subscription that is there; the handler never ends in
    the attribute error that reading the status of [None] is. *)
Theorem pause_resume_subscription_present (request : R11.t) (st : Store) :
  (∀ subscription,
     R11.action request ∈ [ACT_PAUSE; ACT_RESUME] →
     outcome (validate_request11 request subscription st) = Return () →
     is_Some subscription)
  ∧ (R11.action request ∈ [ACT_PAUSE; ACT_RESUME] →
     ∃ e, validate_request11 request None st = Build_Run (Raise e) st []
          ∧ (E.status_type e = ST_BAD_MESSAGE
             ∨ E.status_type e = ST_NOT_FOUND))
  ∧ (∀ collection version,
       action_pause service (Request11 request) collection None version st
       = Build_Run (Crash AttributeError) st []
       ∧ action_resume service (Request11 request) collection None version st
         = Build_Run (Crash AttributeError) st [])
  ∧ outcome (handle_message11 service helpers request st)
    ≠ Crash AttributeError.
Proof.
  split_and!.
  - intros subscription Hact Hret.
    apply validate_request11_Return in Hret as [_ Hsome]. auto.
  - intros Hact.
    destruct (truthy (R11.subscription_id request)) eqn:Hid.
    + eexists. split; [apply validate_request11_unknown|]; try done.
      * apply pause_resume_cases in Hact as [-> | ->]; compute_done.
      * by right.
    + eexists. split; [apply validate_request11_no_id|]; try done.
      * apply pause_resume_cases in Hact as [-> | ->]; compute_done.
      * by left.
  - done.
  - apply handle_message11_no_crash.
Qed.
End Validation.

(** ** The answers of the handlers *)

Section Responses.
Context {Store : Type}.
Variable service : Service Store.
Variable helpers : Helpers.

(** C7.  A request with a legal action that names a collection and gives
    the id of a subscription of another collection is answered with
    NOT_FOUND and the detail [{ITEM: name}], the name being the one in
    the request, whatever the subscription's status and parameters are;
    only the two lookups were made and the store is as before.  This
    holds in both versions. *)
Theorem collection_mismatch_not_found (sid : string)
    (s : SubscriptionEntity.t) (collection : CollectionEntity.t)
    (st : Store) :
  truthy (Some sid) = true →
  get_subscription service sid st = Some s →
  SubscriptionEntity.collection_id s ≠ Some (CollectionEntity.id collection) →
  (∀ request : R11.t,
     R11.action request ∈ ACT_TYPES_11 →
     R11.subscription_id request = Some sid →
     get_collection service (R11.collection_name request) st
     = Some collection →
     handle_message11 service helpers request st
     = Build_Run
         (Raise (E.make ST_NOT_FOUND None (R11.message_id request)
                   (Some {[ SD_ITEM := DStr (R11.collection_name request) ]})))
         st
         [EvGetSubscription sid;
          EvGetCollection (R11.collection_name request)])
  ∧ (∀ request : R10.t,
       R10.action request ∈ ACT_TYPES_10 →
       R10.subscription_id request = Some sid →
       get_collection service (R10.feed_name request) st = Some collection →
       handle_message10 service helpers request st
       = Build_Run
           (Raise (E.make ST_NOT_FOUND None (R10.message_id request)
                     (Some {[ SD_ITEM := DStr (R10.feed_name request) ]})))
           st
           [EvGetCollection (R10.feed_name request);
            EvGetSubscription sid]).
Proof.
  intros Hid Hs Hother. apply other_collection_differs in Hother.
  split.
  - intros request Hact Hsid Hcoll.
    destruct (handle_message11_run service helpers request st)
      as (subscription & Hout & ->).
    rewrite Hsid in *. rewrite find_subscription_Some in * by done.
    simpl in Hout. rewrite Hs in Hout. injection Hout as <-.
    rewrite validate_request11_found by (by rewrite ?Hsid).
    cbn [outcome events]. cbn zeta. by rewrite Hcoll, Hother.
  - intros request Hact Hsid Hcoll.
    destruct (handle_message10_run service helpers request st)
      as (subscription & Hout & ->).
    rewrite Hsid in *. rewrite find_subscription_Some in * by done.
    simpl in Hout. rewrite Hs in Hout. injection Hout as <-.
    rewrite validate_request10_legal by (by rewrite ?Hsid).
    cbn [outcome events]. cbn zeta. by rewrite Hcoll, Hother.
Qed.

(** The run of a version-11 SUBSCRIBE, by the content bindings of the
    request. *)
Lemma action_subscribe_11 (request : R11.t) collection subscription
    (st : Store) :
  let params := R11.subscription_parameters request in
  let requested :=
    parse_content_bindings helpers
      (SubscriptionParameters.content_bindings params) 11 in
  let matching := get_matching_bindings helpers collection requested in
  let response_type := Some (SubscriptionParameters.response_type params) in
  action_subscribe service helpers (Request11 request) collection
    subscription 11 st
  = match SubscriptionParameters.content_bindings params with
    | [] => created service (new_subscription collection response_type []) st
    | _ :: _ =>
        if nonempty requested && negb (nonempty matching)
        then Build_Run
               (Raise (unsupported_content_binding
                         (get_supported_content helpers collection 11)
                         (R11.message_id request)))
               st []
        else created service
               (new_subscription collection response_type matching) st
    end.
Proof.
  unfold action_subscribe. cbn zeta.
  change (11 =? 11) with true. cbn iota.
  destruct (SubscriptionParameters.content_bindings
              (R11.subscription_parameters request)) as [|b bs] eqn:Hbs;
    [done|].
  change (length (b :: bs) =? 0)%nat with false. cbn iota.
  by destruct (nonempty _ && negb (nonempty _)).
Qed.

Lemma action_subscribe_other request collection subscription version
    (st : Store) :
  version ≠ 11 →
  action_subscribe service helpers request collection subscription
    version st
  = created service (new_subscription collection None []) st.
Proof.
  intros Hv. unfold action_subscribe. cbn zeta.
  by destruct (Z.eqb_spec version 11).
Qed.

Lemma nonempty_true {A} (l : list A) : l ≠ [] → nonempty l = true.
Proof. by destruct l. Qed.

(** C6.  A version-11 SUBSCRIBE that supplies no content binding asks for
    a subscription with an empty list of accepted bindings.  One that
    supplies bindings none of which matches the collection is answered
    with UNSUPPORTED_CONTENT_BINDING, the detail
    [{SUPPORTED_CONTENT: supported content of the collection}] and the
    request's message id, and creates nothing.  With any other version
    SUBSCRIBE asks for a subscription with no response type and an empty
    list, and raises nothing.  UNSUPPORTED_CONTENT_BINDING comes from a
    version-11 SUBSCRIBE only. *)
Theorem content_negotiation (collection : CollectionEntity.t) (st : Store) :
  (∀ (request : R11.t) subscription,
     SubscriptionParameters.content_bindings
       (R11.subscription_parameters request) = [] →
     action_subscribe service helpers (Request11 request) collection
       subscription 11 st
     = created service
         (new_subscription collection
            (Some (SubscriptionParameters.response_type
                     (R11.subscription_parameters request))) [])
         st)
  ∧ (∀ (request : R11.t) subscription,
       SubscriptionParameters.content_bindings
         (R11.subscription_parameters request) ≠ [] →
       parse_content_bindings helpers
         (SubscriptionParameters.content_bindings
            (R11.subscription_parameters request)) 11 ≠ [] →
       get_matching_bindings helpers collection
         (parse_content_bindings helpers
            (SubscriptionParameters.content_bindings
               (R11.subscription_parameters request)) 11) = [] →
       action_subscribe service helpers (Request11 request) collection
         subscription 11 st
       = Build_Run
           (Raise (E.make ST_UNSUPPORTED_CONTENT_BINDING None
                     (R11.message_id request)
                     (Some {[ SD_SUPPORTED_CONTENT :=
                                DList (get_supported_content helpers
                                         collection 11) ]})))
           st []
       ∧ (R11.action request = ACT_SUBSCRIBE →
          truthy (R11.subscription_id request) = false →
          get_collection service (R11.collection_name request) st
          = Some collection →
          handle_message11 service helpers request st
          = Build_Run
              (Raise (E.make ST_UNSUPPORTED_CONTENT_BINDING None
                        (R11.message_id request)
                        (Some {[ SD_SUPPORTED_CONTENT :=
                                   DList (get_supported_content helpers
                                            collection 11) ]})))
              st [EvGetCollection (R11.collection_name request)]))
  ∧ (∀ request subscription,
       action_subscribe service helpers request collection subscription
         10 st
       = created service (new_subscription collection None []) st)
  ∧ (∀ (request : R11.t) e,
       outcome (handle_message11 service helpers request st) = Raise e →
       E.status_type e = ST_UNSUPPORTED_CONTENT_BINDING →
       R11.action request = ACT_SUBSCRIBE)
  ∧ (∀ (request : R10.t) e,
       outcome (handle_message10 service helpers request st) = Raise e →
       E.status_type e ≠ ST_UNSUPPORTED_CONTENT_BINDING).
Proof.
  split_and!.
  - intros request subscription Hnil.
    by rewrite action_subscribe_11, Hnil.
  - intros request subscription Hsupplied Hparsed Hnone.
    assert (∀ sub,
              action_subscribe service helpers (Request11 request) collection
                sub 11 st
              = Build_Run
                  (Raise (unsupported_content_binding
                            (get_supported_content helpers collection 11)
                            (R11.message_id request))) st []) as Hraise.
    { intros sub. rewrite action_subscribe_11. cbn zeta.
      destruct (SubscriptionParameters.content_bindings
                  (R11.subscription_parameters request)); [done|].
      by rewrite Hnone, nonempty_true. }
    split; [by apply Hraise|].
    intros Hact Hid Hcoll.
    destruct (handle_message11_run service helpers request st)
      as (found & Hout & ->).
    rewrite find_subscription_falsy in * by done.
    simpl in Hout. injection Hout as <-.
    assert (validate_request11 request None st = Build_Run (Return ()) st [])
      as ->.
    { unfold validate_request11. by rewrite Hact, Hid. }
    cbn [outcome events]. cbn zeta. rewrite Hcoll. cbn [other_collection].
    by rewrite Hact, call_action_subscribe, Hraise.
  - intros request subscription. by apply action_subscribe_other.
  - intros request e He Hty.
    by apply handle_message11_Raise in He as (_ & _ & _ & _ & Hsub); auto.
  - intros request e He.
    by apply handle_message10_Raise in He as (_ & _ & _ & _ & ?).
Qed.

(** The run of a version-11 request with a legal action and the id of a
    subscription of the collection it names: it reaches the action. *)
Lemma handle_message11_found (request : R11.t) (sid : string)
    (s : SubscriptionEntity.t) (collection : CollectionEntity.t)
    (st : Store) :
  R11.action request ∈ ACT_TYPES_11 →
  R11.subscription_id request = Some sid →
  truthy (Some sid) = true →
  get_subscription service sid st = Some s →
  get_collection service (R11.collection_name request) st = Some collection →
  SubscriptionEntity.collection_id s = Some (CollectionEntity.id collection) →
  handle_message11 service helpers request st
  = match outcome (call_action service helpers (R11.action request)
                     (Request11 request) collection (Some s) 11 st) with
    | Return result =>
        Build_Run
          (Return
             (response11 service helpers request collection
                (map (fun s' =>
                        subscription_to_subscription_instance helpers s'
                          (get_polling_services service collection
                             (store (call_action service helpers
                                       (R11.action request) (Request11 request)
                                       collection (Some s) 11 st)))
                          11 (SubscriptionEntity.params s'))
                   (as_list result))))
          (store (call_action service helpers (R11.action request)
                    (Request11 request) collection (Some s) 11 st))
          ([EvGetSubscription sid;
            EvGetCollection (R11.collection_name request)]
           ++ events (call_action service helpers (R11.action request)
                        (Request11 request) collection (Some s) 11 st)
           ++ [EvGetPollingServices collection])%list
    | Raise e =>
        Build_Run (Raise e)
          (store (call_action service helpers (R11.action request)
                    (Request11 request) collection (Some s) 11 st))
          ([EvGetSubscription sid;
            EvGetCollection (R11.collection_name request)]
           ++ events (call_action service helpers (R11.action request)
                        (Request11 request) collection (Some s) 11 st))%list
    | Crash err =>
        Build_Run (Crash err)
          (store (call_action service helpers (R11.action request)
                    (Request11 request) collection (Some s) 11 st))
          ([EvGetSubscription sid;
            EvGetCollection (R11.collection_name request)]
           ++ events (call_action service helpers (R11.action request)
                        (Request11 request) collection (Some s) 11 st))%list
    end.
Proof.
  intros Hact Hsid Hid Hs Hcoll Hsame.
  destruct (handle_message11_run service helpers request st)
    as (subscription & Hout & ->).
  rewrite Hsid in *. rewrite find_subscription_Some in * by done.
  simpl in Hout. rewrite Hs in Hout. injection Hout as <-.
  rewrite validate_request11_found by (by rewrite ?Hsid).
  cbn [outcome events]. cbn zeta.
  by rewrite Hcoll, other_collection_same.
Qed.

(** C9, as the code has it.  The version-11 handler does not single out
    SUBSCRIBE: every instance of its response is made by giving the
    converter a subscription the action returned together with the
    parameters that subscription itself holds, whatever the action was.
    So, for a request that names a known collection and gives the id of a
    subscription of that collection, STATUS, PAUSE of a PAUSED
    subscription and RESUME of one that is not PAUSED give the parameters
    of the subscription that was looked up, and UNSUBSCRIBE, PAUSE and
    RESUME that update give the parameters of the subscription the service
    returns from the update; UNSUBSCRIBE of an unknown id, for a known
    collection, gives none, as the subscription made for it holds none.
    The version-10 handler gives no parameters for any result. *)
Theorem instances_carry_the_parameters_of_the_subscription (st : Store) :
  (∀ (request : R11.t) response,
     outcome (handle_message11 service helpers request st) = Return response →
     ∃ collection subscription result,
       get_collection service (R11.collection_name request) st
       = Some collection
       ∧ outcome (find_subscription service (R11.subscription_id request) st)
         = Return subscription
       ∧ outcome (call_action service helpers (R11.action request)
                    (Request11 request) collection subscription 11 st)
         = Return result
       ∧ tm11.ManageCollectionSubscriptionResponse.subscription_instances
           response
         = map (fun s =>
                  subscription_to_subscription_instance helpers s
                    (get_polling_services service collection
                       (store (handle_message11 service helpers request st)))
                    11 (SubscriptionEntity.params s))
             (as_list result))
  ∧ (∀ (request : R11.t) sid s collection,
       R11.subscription_id request = Some sid →
       truthy (Some sid) = true →
       get_subscription service sid st = Some s →
       get_collection service (R11.collection_name request) st
       = Some collection →
       SubscriptionEntity.collection_id s
       = Some (CollectionEntity.id collection) →
       (R11.action request = ACT_STATUS
        ∨ R11.action request = ACT_PAUSE
          ∧ SubscriptionEntity.status s = PAUSED
        ∨ R11.action request = ACT_RESUME
          ∧ SubscriptionEntity.status s ≠ PAUSED →
        handle_message11 service helpers request st
        = Build_Run
            (Return
               (response11 service helpers request collection
                  [subscription_to_subscription_instance helpers s
                     (get_polling_services service collection st) 11
                     (SubscriptionEntity.params s)]))
            st
            [EvGetSubscription sid;
             EvGetCollection (R11.collection_name request);
             EvGetPollingServices collection])
       ∧ (∀ new_status,
            R11.action request = ACT_UNSUBSCRIBE ∧ new_status = UNSUBSCRIBED
            ∨ R11.action request = ACT_PAUSE
              ∧ SubscriptionEntity.status s ≠ PAUSED ∧ new_status = PAUSED
            ∨ R11.action request = ACT_RESUME
              ∧ SubscriptionEntity.status s = PAUSED ∧ new_status = ACTIVE →
            handle_message11 service helpers request st
            = Build_Run
                (Return
                   (response11 service helpers request collection
                      [subscription_to_subscription_instance helpers
                         (update_subscription service s new_status st).1
                         (get_polling_services service collection
                            (update_subscription service s new_status st).2)
                         11
                         (SubscriptionEntity.params
                            (update_subscription service s new_status st).1)]))
                (update_subscription service s new_status st).2
                [EvGetSubscription sid;
                 EvGetCollection (R11.collection_name request);
                 EvUpdateSubscription s new_status;
                 EvGetPollingServices collection]))
  ∧ (∀ (request : R11.t) sid collection,
       R11.action request = ACT_UNSUBSCRIBE →
       R11.subscription_id request = Some sid →
       truthy (Some sid) = true →
       get_subscription service sid st = None →
       get_collection service (R11.collection_name request) st
       = Some collection →
       handle_message11 service helpers request st
       = Build_Run
           (Return
              (response11 service helpers request collection
                 [subscription_to_subscription_instance helpers
                    (SubscriptionEntity.make (Some sid) None None UNSUBSCRIBED)
                    (get_polling_services service collection st) 11 None]))
           st
           [EvGetSubscription sid;
            EvGetCollection (R11.collection_name request);
            EvGetPollingServices collection])
  ∧ (∀ (request : R10.t) response,
       outcome (handle_message10 service helpers request st) = Return response →
       ∃ collection subscription result,
         get_collection service (R10.feed_name request) st = Some collection
         ∧ outcome (find_subscription service (R10.subscription_id request)
                      st)
           = Return subscription
         ∧ outcome (call_action service helpers (R10.action request)
                      (Request10 request) collection subscription 10 st)
           = Return result
         ∧ tm10.ManageFeedSubscriptionResponse.subscription_instances
             response
           = map (fun s =>
                    subscription_to_subscription_instance helpers s
                      (get_polling_services service collection
                         (store (handle_message10 service helpers request
                                   st)))
                      10 None)
               (as_list result)).
Proof.
  split_and!.
  - intros request response.
    destruct (handle_message11_run service helpers request st)
      as (subscription & Hout & ->). cbn zeta.
    destruct (outcome (validate_request11 request subscription st));
      [|done..].
    destruct (get_collection service (R11.collection_name request) st)
      as [collection|] eqn:Hcoll; [|done].
    destruct (other_collection subscription collection); [done|].
    destruct (outcome (call_action _ _ _ _ _ _ _ _)) as [result| |] eqn:Hact;
      [|done..].
    simpl. intros [= <-]. by exists collection, subscription, result.
  - intros request sid s collection Hsid Hid Hs Hcoll Hsame. split.
    + intros Hcase.
      rewrite (handle_message11_found request sid s collection st);
        try done.
      * destruct Hcase as [-> | [[-> Hst] | [-> Hst]]].
        -- by rewrite call_action_status.
        -- rewrite call_action_pause, action_pause_run.
           by rewrite bool_decide_eq_true_2.
        -- rewrite call_action_resume, action_resume_run.
           by rewrite bool_decide_eq_true_2.
      * destruct Hcase as [-> | [[-> _] | [-> _]]]; compute_done.
    + intros new_status Hcase.
      rewrite (handle_message11_found request sid s collection st);
        try done.
      * destruct Hcase as [[-> ->] | [(-> & Hst & ->) | (-> & Hst & ->)]].
        -- by rewrite call_action_unsubscribe, action_unsubscribe_known.
        -- rewrite call_action_pause, action_pause_run.
           by rewrite bool_decide_eq_false_2.
        -- rewrite call_action_resume, action_resume_run.
           rewrite bool_decide_eq_false_2; [done|]. by intros Hne.
      * destruct Hcase as [[-> _] | [(-> & _) | (-> & _)]]; compute_done.
  - intros request sid collection Hact Hsid Hid Hnone Hcoll.
    rewrite (handle_message11_unsubscribe service helpers request sid
               collection st) by (by rewrite ?Hnone).
    rewrite Hnone. simpl. by rewrite Hsid.
  - intros request response.
    destruct (handle_message10_run service helpers request st)
      as (subscription & Hout & ->).
    destruct (outcome (validate_request10 request st)); [|done..].
    cbn zeta.
    destruct (get_collection service (R10.feed_name request) st)
      as [collection|] eqn:Hcoll; [|done].
    destruct (other_collection subscription collection); [done|].
    destruct (outcome (call_action _ _ _ _ _ _ _ _)) as [result| |] eqn:Hact;
      [|done..].
    simpl. intros [= <-]. by exists collection, subscription, result.
Qed.
End Responses.

(** ** The handlers at work on the in-memory service *)

Import InMemory.

Lemma pause_resume_idempotent_witness :
  action_pause (service None)
    (Request11 (request11 ACT_PAUSE "X" (Some "subscription-0") []))
    collection_X (Some paused_0) 11 paused_store
  = unchanged paused_0 paused_store
  ∧ action_resume (service None)
      (Request11 (request11 ACT_RESUME "X" (Some "subscription-0") []))
      collection_X (Some subscription_0) 11 subscribed_store
    = unchanged subscription_0 subscribed_store
  ∧ stored_status "subscription-0"
      (store (action_pause (service None)
                (Request11 (request11 ACT_PAUSE "X" (Some "subscription-0") []))
                collection_X (Some subscription_0) 11 subscribed_store))
    = Some PAUSED
  ∧ stored_status "subscription-0"
      (store (action_resume (service None)
                (Request11 (request11 ACT_RESUME "X" (Some "subscription-0") []))
                collection_X (Some paused_0) 11 paused_store))
    = Some ACTIVE.
Proof.
  split_and!.
  - apply pause_resume_idempotent. reflexivity.
  - apply pause_resume_idempotent. discriminate.
  - rewrite (proj1 (proj2 (proj2 (pause_resume_idempotent (service None) _
               collection_X subscription_0 11 subscribed_store))));
      [vm_compute; reflexivity | discriminate].
  - rewrite (proj2 (proj2 (proj2 (pause_resume_idempotent (service None) _
               collection_X paused_0 11 paused_store))));
      [vm_compute; reflexivity | reflexivity].
Defined.

Lemma unsubscribed_resume_noop_pause_updates_witness :
  SubscriptionEntity.status unsubscribed_0 = UNSUBSCRIBED
  ∧ action_resume (service None)
      (Request11 (request11 ACT_RESUME "X" (Some "subscription-0") []))
      collection_X (Some unsubscribed_0) 11 unsubscribed_store
    = unchanged unsubscribed_0 unsubscribed_store
  ∧ action_pause (service None)
      (Request11 (request11 ACT_RESUME "X" (Some "subscription-0") []))
      collection_X (Some unsubscribed_0) 11 unsubscribed_store
    = updated (service None) unsubscribed_0 PAUSED unsubscribed_store.
Proof.
  split; [reflexivity|].
  apply unsubscribed_resume_noop_pause_updates. reflexivity.
Defined.

(** C2 as stated fails: the stored subscription is UNSUBSCRIBED, a PAUSE
    request for it is answered, the service is asked to update it, and the
    stored status is PAUSED afterwards. *)
Lemma unsubscribed_pause_counterexample :
  stored_status "subscription-0" unsubscribed_store = Some UNSUBSCRIBED
  ∧ events (run11 (request11 ACT_PAUSE "X" (Some "subscription-0") [])
              unsubscribed_store)
    = [EvGetSubscription "subscription-0"; EvGetCollection "X";
       EvUpdateSubscription unsubscribed_0 PAUSED;
       EvGetPollingServices collection_X]
  ∧ stored_status "subscription-0"
      (store (run11 (request11 ACT_PAUSE "X" (Some "subscription-0") [])
                unsubscribed_store))
    = Some PAUSED.
Proof. split_and!; vm_compute; reflexivity. Qed.

Lemma unsubscribe_unknown_id_is_acknowledged_witness :
  get_subscription (service None) "unknown" subscribed_store = None
  ∧ run11 (request11 ACT_UNSUBSCRIBE "X" (Some "unknown") []) subscribed_store
    = Build_Run
        (Return
           (response11 (service None) helpers
              (request11 ACT_UNSUBSCRIBE "X" (Some "unknown") []) collection_X
              [subscription_to_subscription_instance helpers
                 (synthetic (Some "unknown"))
                 (get_polling_services (service None) collection_X
                    subscribed_store) 11 None]))
        subscribed_store
        [EvGetSubscription "unknown"; EvGetCollection "X";
         EvGetPollingServices collection_X]
  ∧ events (run10 (request10 ACT_UNSUBSCRIBE "X" (Some "unknown"))
              subscribed_store)
    = [EvGetCollection "X"; EvGetSubscription "unknown";
       EvGetPollingServices collection_X]
  ∧ stored_status "subscription-0"
      (store (run11 (request11 ACT_UNSUBSCRIBE "X" (Some "subscription-0") [])
                subscribed_store))
    = Some UNSUBSCRIBED.
Proof.
  split; [reflexivity|]. split_and!.
  - apply (proj1 (proj2 (proj2 (unsubscribe_unknown_id_is_acknowledged
             (service None) helpers "unknown" subscribed_store collection_X))));
      reflexivity.
  - unfold run10.
    rewrite (proj1 (proj2 (proj2 (proj2 (unsubscribe_unknown_id_is_acknowledged
               (service None) helpers "unknown" subscribed_store collection_X)))
               (request10 ACT_UNSUBSCRIBE "X" (Some "unknown"))
               eq_refl eq_refl eq_refl eq_refl) eq_refl).
    reflexivity.
  - unfold run11.
    rewrite (proj2 (proj1 (proj2 (proj2 (unsubscribe_unknown_id_is_acknowledged
               (service None) helpers "subscription-0" subscribed_store
               collection_X)))
               (request11 ACT_UNSUBSCRIBE "X" (Some "subscription-0") [])
               eq_refl eq_refl eq_refl eq_refl) subscription_0 eq_refl eq_refl).
    vm_compute. reflexivity.
Defined.

Lemma validate_request11_signals_witness :
  outcome (run11 (request11 "PUBLISH" "X" None []) subscribed_store)
  = Raise (invalid_action "request")
  ∧ outcome (run11 (request11 ACT_PAUSE "X" None []) subscribed_store)
    = Raise (id_required ACT_PAUSE "request")
  ∧ outcome (run11 (request11 ACT_STATUS "X" (Some "unknown") [])
               subscribed_store)
    = Raise (not_found (DStr "unknown") "request")
  ∧ E.in_response_to
      (E.make ST_NOT_FOUND (Some "The collection you requested was not found")
         "request" (Some {[ SD_ITEM := DStr "Z" ]}))
    = "request".
Proof.
  split_and!.
  - apply (proj1 (validate_request11_signals (service None) helpers
                    (request11 "PUBLISH" "X" None []) subscribed_store)).
    compute_done.
  - apply (proj1 (proj2 (validate_request11_signals (service None) helpers
                           (request11 ACT_PAUSE "X" None []) subscribed_store)));
      [compute_done | reflexivity].
  - apply (proj1 (proj2 (proj2 (validate_request11_signals (service None)
             helpers (request11 ACT_STATUS "X" (Some "unknown") [])
             subscribed_store))) "unknown");
      [compute_done | reflexivity..].
  - apply (proj2 (proj2 (proj2 (validate_request11_signals (service None)
             helpers (request11 ACT_STATUS "Z" None []) subscribed_store)))).
    reflexivity.
Defined.

Lemma version10_rejects_pause_and_resume_witness :
  run10 (request10 ACT_PAUSE "X" (Some "subscription-0")) subscribed_store
  = Build_Run (Raise (invalid_action "request")) subscribed_store []
  ∧ validate_request11 (request11 ACT_PAUSE "X" (Some "subscription-0") [])
      (Some subscription_0) subscribed_store
    = Build_Run (Return ()) subscribed_store []
  ∧ run10 (request10 ACT_UNSUBSCRIBE "X" None) subscribed_store
    = Build_Run (Raise (id_required ACT_UNSUBSCRIBE "request"))
        subscribed_store []
  ∧ validate_request10 (request10 ACT_STATUS "X" None) subscribed_store
    = Build_Run (Return ()) subscribed_store []
  ∧ events (run10 (request10 ACT_RESUME "X" (Some "subscription-0"))
              subscribed_store) = [].
Proof.
  split_and!.
  - apply (proj1 (version10_rejects_pause_and_resume (service None) helpers
                    subscribed_store)).
    compute_done.
  - apply (proj1 (proj2 (version10_rejects_pause_and_resume (service None)
                           helpers subscribed_store)));
      [compute_done | reflexivity].
  - apply (proj1 (proj2 (proj2 (version10_rejects_pause_and_resume
             (service None) helpers subscribed_store)))); reflexivity.
  - apply (proj1 (proj2 (proj2 (proj2 (version10_rejects_pause_and_resume
             (service None) helpers subscribed_store))))).
    compute_done.
  - apply (proj2 (proj2 (proj2 (proj2 (version10_rejects_pause_and_resume
             (service None) helpers subscribed_store))))
             (request10 ACT_RESUME "X" (Some "subscription-0"))
             (invalid_action "request")); reflexivity.
Defined.

Lemma bad_message_store_access_witness :
  events (run10 (request10 "PUBLISH" "X" (Some "subscription-0"))
            subscribed_store) = []
  ∧ events (run11 (request11 ACT_UNSUBSCRIBE "X" None []) subscribed_store)
    = []
  ∧ events (run11 (request11 "PUBLISH" "X" (Some "subscription-0") [])
              subscribed_store)
    = [EvGetSubscription "subscription-0"].
Proof.
  split_and!.
  - apply (proj1 (bad_message_store_access (service None) helpers
                    subscribed_store)
             (request10 "PUBLISH" "X" (Some "subscription-0"))
             (invalid_action "request")); reflexivity.
  - apply (proj2 (bad_message_store_access (service None) helpers
                    subscribed_store)
             (request11 ACT_UNSUBSCRIBE "X" None [])
             (id_required ACT_UNSUBSCRIBE "request")); reflexivity.
  - apply (proj2 (bad_message_store_access (service None) helpers
                    subscribed_store)
             (request11 "PUBLISH" "X" (Some "subscription-0") [])
             (invalid_action "request")); reflexivity.
Defined.

(** C3 as stated fails: a version-11 request with an action that is not
    legal and with the id of a subscription is answered with BAD_MESSAGE
    after the subscription was looked up in the store. *)
Lemma bad_message_after_lookup_counterexample :
  outcome (run11 (request11 "PUBLISH" "X" (Some "subscription-0") [])
             subscribed_store)
  = Raise (E.make ST_BAD_MESSAGE (Some "The specified action was invalid")
             "request" None)
  ∧ events (run11 (request11 "PUBLISH" "X" (Some "subscription-0") [])
              subscribed_store)
    = [EvGetSubscription "subscription-0"]
  ∧ events (run11 (request11 "PUBLISH" "X" (Some "subscription-0") [])
              subscribed_store) ≠ [].
Proof. split_and!; [reflexivity | reflexivity | discriminate]. Qed.

Lemma pause_resume_subscription_present_witness :
  is_Some (Some subscription_0)
  ∧ (∃ e,
       validate_request11 (request11 ACT_PAUSE "X" (Some "unknown") []) None
         subscribed_store
       = Build_Run (Raise e) subscribed_store []
       ∧ (E.status_type e = ST_BAD_MESSAGE ∨ E.status_type e = ST_NOT_FOUND)).
Proof.
  split.
  - apply (proj1 (pause_resume_subscription_present (service None) helpers
                    (request11 ACT_PAUSE "X" (Some "subscription-0") [])
                    subscribed_store) (Some subscription_0));
      [compute_done | reflexivity].
  - apply (proj1 (proj2 (pause_resume_subscription_present (service None)
             helpers (request11 ACT_PAUSE "X" (Some "unknown") [])
             subscribed_store))).
    compute_done.
Defined.

Lemma collection_mismatch_not_found_witness :
  run11 (request11 ACT_PAUSE "Y" (Some "subscription-0") []) subscribed_store
  = Build_Run (Raise (not_found (DStr "Y") "request")) subscribed_store
      [EvGetSubscription "subscription-0"; EvGetCollection "Y"]
  ∧ run10 (request10 ACT_UNSUBSCRIBE "Y" (Some "subscription-0"))
      subscribed_store
    = Build_Run (Raise (not_found (DStr "Y") "request")) subscribed_store
        [EvGetCollection "Y"; EvGetSubscription "subscription-0"].
Proof.
  assert (SubscriptionEntity.collection_id subscription_0
          ≠ Some (CollectionEntity.id collection_Y)) as Hother
    by discriminate.
  split.
  - apply (proj1 (collection_mismatch_not_found (service None) helpers
                    "subscription-0" subscription_0 collection_Y
                    subscribed_store eq_refl eq_refl Hother));
      [compute_done | reflexivity..].
  - apply (proj2 (collection_mismatch_not_found (service None) helpers
                    "subscription-0" subscription_0 collection_Y
                    subscribed_store eq_refl eq_refl Hother));
      [compute_done | reflexivity..].
Defined.

Lemma content_negotiation_witness :
  action_subscribe (service None) helpers
    (Request11 (request11 ACT_SUBSCRIBE "X" None [])) collection_X None 11
    empty_store
  = created (service None)
      (new_subscription collection_X (Some "FULL") []) empty_store
  ∧ run11 (request11 ACT_SUBSCRIBE "X" None ["C"]) empty_store
    = Build_Run
        (Raise (unsupported_content_binding ["A"; "B"] "request"))
        empty_store [EvGetCollection "X"]
  ∧ E.status_type (unsupported_content_binding ["A"; "B"] "request")
    = ST_UNSUPPORTED_CONTENT_BINDING
  ∧ R11.action (request11 ACT_SUBSCRIBE "X" None ["C"]) = ACT_SUBSCRIBE.
Proof.
  split_and!.
  - apply (proj1 (content_negotiation (service None) helpers collection_X
                    empty_store)). reflexivity.
  - apply (proj2 (proj1 (proj2 (content_negotiation (service None) helpers
             collection_X empty_store))
             (request11 ACT_SUBSCRIBE "X" None ["C"]) None
             ltac:(discriminate) ltac:(discriminate) eq_refl));
      reflexivity.
  - reflexivity.
  - apply (proj1 (proj2 (proj2 (proj2 (content_negotiation (service None)
             helpers collection_X empty_store))))
             (request11 ACT_SUBSCRIBE "X" None ["C"])
             (unsupported_content_binding ["A"; "B"] "request"));
      reflexivity.
Defined.

Lemma instances_carry_the_parameters_of_the_subscription_witness :
  run11 (request11 ACT_STATUS "X" (Some "subscription-0") []) subscribed_store
  = Build_Run
      (Return
         (response11 (service None) helpers
            (request11 ACT_STATUS "X" (Some "subscription-0") []) collection_X
            [subscription_to_subscription_instance helpers subscription_0
               (get_polling_services (service None) collection_X
                  subscribed_store) 11
               (SubscriptionEntity.params subscription_0)]))
      subscribed_store
      [EvGetSubscription "subscription-0"; EvGetCollection "X";
       EvGetPollingServices collection_X]
  ∧ instances11
      (run11 (request11 ACT_PAUSE "X" (Some "subscription-0") [])
         subscribed_store)
    = Some [subscription_to_subscription_instance helpers paused_0
              (get_polling_services (service None) collection_X paused_store)
              11 (SubscriptionEntity.params paused_0)]
  ∧ instances11
      (run11 (request11 ACT_UNSUBSCRIBE "X" (Some "unknown") [])
         subscribed_store)
    = Some [subscription_to_subscription_instance helpers
              (SubscriptionEntity.make (Some "unknown") None None UNSUBSCRIBED)
              (get_polling_services (service None) collection_X
                 subscribed_store) 11 None]
  ∧ (∃ collection subscription result,
       get_collection (service None) "X" empty_store = Some collection
       ∧ outcome (find_subscription (service None) None empty_store)
         = Return subscription
       ∧ outcome (call_action (service None) helpers ACT_SUBSCRIBE
                    (Request11 (request11 ACT_SUBSCRIBE "X" None ["B"; "C"]))
                    collection subscription 11 empty_store)
         = Return result
       ∧ [subscription_to_subscription_instance helpers subscription_0
            (get_polling_services (service None) collection_X subscribed_store)
            11 (SubscriptionEntity.params subscription_0)]
         = map (fun s =>
                  subscription_to_subscription_instance helpers s
                    (get_polling_services (service None) collection
                       (store (run11 (request11 ACT_SUBSCRIBE "X" None
                                        ["B"; "C"]) empty_store)))
                    11 (SubscriptionEntity.params s))
             (as_list result))
  ∧ ∃ collection subscription result,
      get_collection (service None) "X" subscribed_store = Some collection
      ∧ outcome (find_subscription (service None) None subscribed_store)
        = Return subscription
      ∧ outcome (call_action (service None) helpers ACT_STATUS
                   (Request10 (request10 ACT_STATUS "X" None)) collection
                   subscription 10 subscribed_store)
        = Return result
      ∧ [subscription_to_subscription_instance helpers subscription_0
           (get_polling_services (service None) collection_X subscribed_store)
           10 None]
        = map (fun s =>
                 subscription_to_subscription_instance helpers s
                   (get_polling_services (service None) collection
                      (store (run10 (request10 ACT_STATUS "X" None)
                                subscribed_store)))
                   10 None)
            (as_list result).
Proof.
  pose proof (instances_carry_the_parameters_of_the_subscription
                (service None) helpers subscribed_store)
    as (_ & Hfound & Hunknown & Hv10).
  split_and!.
  - apply (proj1 (Hfound (request11 ACT_STATUS "X" (Some "subscription-0") [])
                    "subscription-0" subscription_0 collection_X
                    eq_refl eq_refl eq_refl eq_refl eq_refl)).
    by left.
  - unfold run11.
    rewrite (proj2 (Hfound (request11 ACT_PAUSE "X" (Some "subscription-0") [])
                      "subscription-0" subscription_0 collection_X
                      eq_refl eq_refl eq_refl eq_refl eq_refl) PAUSED).
    + reflexivity.
    + right; left. split_and!; [reflexivity | discriminate | reflexivity].
  - unfold run11.
    rewrite (Hunknown (request11 ACT_UNSUBSCRIBE "X" (Some "unknown") [])
               "unknown" collection_X eq_refl eq_refl eq_refl eq_refl eq_refl).
    reflexivity.
  - apply (proj1 (instances_carry_the_parameters_of_the_subscription
                    (service None) helpers empty_store)
             (request11 ACT_SUBSCRIBE "X" None ["B"; "C"])
             (response11 (service None) helpers
                (request11 ACT_SUBSCRIBE "X" None ["B"; "C"]) collection_X
                [subscription_to_subscription_instance helpers subscription_0
                   (get_polling_services (service None) collection_X
                      subscribed_store) 11
                   (SubscriptionEntity.params subscription_0)])).
    vm_compute. reflexivity.
  - apply (Hv10 (request10 ACT_STATUS "X" None)
             (response10 (service None) helpers (request10 ACT_STATUS "X" None)
                collection_X
                [subscription_to_subscription_instance helpers subscription_0
                   (get_polling_services (service None) collection_X
                      subscribed_store) 10 None])).
    vm_compute. reflexivity.
Defined.

(** Whatever the converter of subscriptions is, the instance that answers
    STATUS for the stored subscription is the instance made from that
    subscription and its own parameters, the ones SUBSCRIBE negotiated. *)
Lemma status_instance_any_converter converter :
  instances11
    (handle_message11 (service None) (helpers_with converter)
       (request11 ACT_STATUS "X" (Some "subscription-0") []) subscribed_store)
  = Some [converter subscription_0
            [PollingService.make "/poll" ["http"; "https"]] 11
            (Some (PollRequestParametersEntity.make (Some "FULL") ["B"]))]
  ∧ instances11
      (handle_message11 (service None) (helpers_with converter)
         (request11 ACT_SUBSCRIBE "X" None ["B"; "C"]) empty_store)
    = Some [converter subscription_0
              [PollingService.make "/poll" ["http"; "https"]] 11
              (Some (PollRequestParametersEntity.make (Some "FULL") ["B"]))].
Proof. split; vm_compute; reflexivity. Qed.

(** C9 as stated fails: the instance that answers a STATUS request, and the
    one that answers a PAUSE request, carry the parameters of the stored
    subscription. *)
Lemma status_instance_parameters_counterexample :
  instances11
    (run11 (request11 ACT_STATUS "X" (Some "subscription-0") [])
       subscribed_store)
  = Some [SubscriptionInstance.make (Some "subscription-0") (Some ACTIVE)
            (Some (PollRequestParametersEntity.make (Some "FULL") ["B"]))
            [PollInstance.make "http" "/poll";
             PollInstance.make "https" "/poll"]]
  ∧ instances11
      (run11 (request11 ACT_PAUSE "X" (Some "subscription-0") [])
         subscribed_store)
    = Some [SubscriptionInstance.make (Some "subscription-0") (Some PAUSED)
              (Some (PollRequestParametersEntity.make (Some "FULL") ["B"]))
              [PollInstance.make "http" "/poll";
               PollInstance.make "https" "/poll"]].
Proof. split; vm_compute; reflexivity. Qed.

(** * Further properties of the handlers *)

(** ** What a run changes *)

Section Effects.
Context {Store : Type}.
Variable service : Service Store.
Variable helpers : Helpers.

(** What an action does to the store: nothing, or the one creation of a
    SUBSCRIBE, or the one update of the subscription it was given. *)
Lemma call_action_effect action request collection subscription version
    (st : Store) :
  (store (call_action service helpers action request collection subscription
            version st) = st
   ∧ writes (events (call_action service helpers action request collection
                       subscription version st)) = [])
  ∨ (∃ response_type accepted,
       action = ACT_SUBSCRIBE
       ∧ call_action service helpers action request collection subscription
           version st
         = created service
             (new_subscription collection response_type accepted) st)
  ∨ (∃ s new_status,
       subscription = Some s
       ∧ call_action service helpers action request collection subscription
           version st
         = updated service s new_status st
       ∧ (action = ACT_UNSUBSCRIBE ∧ new_status = UNSUBSCRIBED
          ∨ action = ACT_PAUSE ∧ new_status = PAUSED
            ∧ SubscriptionEntity.status s ≠ PAUSED
          ∨ action = ACT_RESUME ∧ new_status = ACTIVE
            ∧ SubscriptionEntity.status s = PAUSED)).
Proof.
  unfold call_action. rewrite getitem_ACTIONS.
  destruct (String.eqb_spec action ACT_SUBSCRIBE) as [->|?].
  { unfold action_subscribe. cbn zeta.
    destruct (version =? 11).
    - destruct request as [r|r]; [|by left].
      destruct (length _ =? 0)%nat; [right; left; by eauto|].
      destruct (nonempty _ && negb (nonempty _)); [by left|].
      right; left; by eauto.
    - right; left; by eauto. }
  destruct (String.eqb_spec action ACT_UNSUBSCRIBE) as [->|?].
  { destruct subscription as [s|]; [|by left].
    right; right. exists s, UNSUBSCRIBED. split_and!; try done. by left. }
  destruct (String.eqb_spec action ACT_PAUSE) as [->|?].
  { destruct subscription as [s|]; [|by left].
    rewrite action_pause_run. case_bool_decide; [by left|].
    right; right. exists s, PAUSED. split_and!; try done.
    right; left. done. }
  destruct (String.eqb_spec action ACT_RESUME) as [->|?].
  { destruct subscription as [s|]; [|by left].
    rewrite action_resume_run. case_bool_decide as Hs; [by left|].
    right; right. exists s, ACTIVE. split_and!; try done.
    right; right. split_and!; try done. }
  destruct (String.eqb_spec action ACT_STATUS) as [->|?]; [|by left].
  destruct subscription; by left.
Qed.

Lemma writes_app (a b : list Event) :
  writes (a ++ b)%list = (writes a ++ writes b)%list.
Proof. apply List.filter_app. Qed.

Lemma writes_nil_Forall (evs : list Event) :
  Forall (fun ev => is_write ev = false) evs → writes evs = [].
Proof.
  induction 1 as [|ev evs Hev _ IH]; [done|].
  unfold writes in *. simpl. by rewrite Hev.
Qed.

Lemma find_subscription_writes (sid : option string) (st : Store) :
  writes (events (find_subscription service sid st)) = [].
Proof. apply writes_nil_Forall, find_subscription_events. Qed.

(** A subscription that was found was looked up by the id of the request. *)
Lemma find_subscription_found (sid : option string) (st : Store)
    (s : SubscriptionEntity.t) :
  outcome (find_subscription service sid st) = Return (Some s) →
  ∃ id, sid = Some id ∧ truthy sid = true
        ∧ get_subscription service id st = Some s.
Proof.
  destruct sid as [[|a rest]|]; simpl; try done.
  intros [= Hs]. eauto.
Qed.

Lemma other_collection_false (s : SubscriptionEntity.t)
    (collection : CollectionEntity.t) :
  other_collection (Some s) collection = false →
  SubscriptionEntity.collection_id s = Some (CollectionEntity.id collection).
Proof.
  unfold other_collection. intros H%bool_decide_eq_false.
  by destruct (decide (SubscriptionEntity.collection_id s
                       = Some (CollectionEntity.id collection))).
Qed.

(** X1.  A run of the version-11 handler asks the service for at most one
    change of the store.  It is the creation of an ACTIVE subscription of
    the collection the request names, made by SUBSCRIBE, or the update of
    the subscription that the request's id names, which belongs to the
    collection the request names: to UNSUBSCRIBED by UNSUBSCRIBE, to
    PAUSED by PAUSE of a subscription that is not PAUSED, to ACTIVE by
    RESUME of a PAUSED one.  Without such a call the store is as before. *)
Theorem handle_message11_writes (request : R11.t) (st : Store) :
  (store (handle_message11 service helpers request st) = st
   ∧ writes (events (handle_message11 service helpers request st)) = [])
  ∨ (∃ collection response_type accepted,
       R11.action request = ACT_SUBSCRIBE
       ∧ get_collection service (R11.collection_name request) st
         = Some collection
       ∧ writes (events (handle_message11 service helpers request st))
         = [EvCreateSubscription
              (new_subscription collection response_type accepted)]
       ∧ store (handle_message11 service helpers request st)
         = (create_subscription service
              (new_subscription collection response_type accepted) st).2)
  ∨ (∃ sid s collection new_status,
       R11.subscription_id request = Some sid
       ∧ get_subscription service sid st = Some s
       ∧ get_collection service (R11.collection_name request) st
         = Some collection
       ∧ SubscriptionEntity.collection_id s
         = Some (CollectionEntity.id collection)
       ∧ writes (events (handle_message11 service helpers request st))
         = [EvUpdateSubscription s new_status]
       ∧ store (handle_message11 service helpers request st)
         = (update_subscription service s new_status st).2
       ∧ (R11.action request = ACT_UNSUBSCRIBE ∧ new_status = UNSUBSCRIBED
          ∨ R11.action request = ACT_PAUSE ∧ new_status = PAUSED
            ∧ SubscriptionEntity.status s ≠ PAUSED
          ∨ R11.action request = ACT_RESUME ∧ new_status = ACTIVE
            ∧ SubscriptionEntity.status s = PAUSED)).
Proof.
  destruct (handle_message11_run service helpers request st)
    as (subscription & Hout & ->).
  pose proof (find_subscription_writes (R11.subscription_id request) st)
    as Hfind.
  cbn zeta.
  destruct (outcome (validate_request11 request subscription st));
    [|by left..].
  destruct (get_collection service (R11.collection_name request) st)
    as [collection|] eqn:Hcoll;
    [|left; cbn [store events]; by rewrite writes_app, Hfind].
  destruct (other_collection subscription collection) eqn:Hsame;
    [left; cbn [store events]; by rewrite writes_app, Hfind|].
  destruct (call_action_effect (R11.action request) (Request11 request)
              collection subscription 11 st)
    as [[Hst Hw] | [(rt & accepted & Hact & Hrun)
                   | (s & new_status & -> & Hrun & Hact)]].
  - left. destruct (outcome (call_action _ _ _ _ _ _ _ _));
      cbn [store events]; rewrite !writes_app, Hfind, Hw; done.
  - right; left. exists collection, rt, accepted.
    rewrite Hrun. cbn [created outcome store events].
    by rewrite !writes_app, Hfind.
  - right; right.
    apply find_subscription_found in Hout as (sid & Hsid & _ & Hs).
    apply other_collection_false in Hsame.
    exists sid, s, collection, new_status.
    rewrite Hrun. cbn [updated outcome store events].
    by rewrite !writes_app, Hfind.
Qed.

(** X2.  A run of the version-10 handler asks the service for at most one
    change of the store: the creation of an ACTIVE subscription, without
    response type and content bindings, of the collection the request
    names, made by SUBSCRIBE, or the update to UNSUBSCRIBED, made by
    UNSUBSCRIBE, of the subscription that the request's id names, which
    belongs to the collection the request names.  Nothing is ever updated
    to PAUSED or ACTIVE. *)
Theorem handle_message10_writes (request : R10.t) (st : Store) :
  (store (handle_message10 service helpers request st) = st
   ∧ writes (events (handle_message10 service helpers request st)) = [])
  ∨ (∃ collection,
       R10.action request = ACT_SUBSCRIBE
       ∧ get_collection service (R10.feed_name request) st = Some collection
       ∧ writes (events (handle_message10 service helpers request st))
         = [EvCreateSubscription (new_subscription collection None [])]
       ∧ store (handle_message10 service helpers request st)
         = (create_subscription service
              (new_subscription collection None []) st).2)
  ∨ (∃ sid s collection,
       R10.action request = ACT_UNSUBSCRIBE
       ∧ R10.subscription_id request = Some sid
       ∧ get_subscription service sid st = Some s
       ∧ get_collection service (R10.feed_name request) st = Some collection
       ∧ SubscriptionEntity.collection_id s
         = Some (CollectionEntity.id collection)
       ∧ writes (events (handle_message10 service helpers request st))
         = [EvUpdateSubscription s UNSUBSCRIBED]
       ∧ store (handle_message10 service helpers request st)
         = (update_subscription service s UNSUBSCRIBED st).2).
Proof.
  destruct (handle_message10_run service helpers request st)
    as (subscription & Hout & ->).
  pose proof (find_subscription_writes (R10.subscription_id request) st)
    as Hfind.
  destruct (outcome (validate_request10 request st)) as [[]| |] eqn:Hval;
    [|by left..].
  assert (R10.action request ∈ ACT_TYPES_10) as Hlegal.
  { destruct (decide (R10.action request ∈ ACT_TYPES_10)) as [|Hno]; [done|].
    by rewrite (validate_request10_invalid request st Hno) in Hval. }
  cbn zeta.
  destruct (get_collection service (R10.feed_name request) st)
    as [collection|] eqn:Hcoll; [|by left].
  destruct (other_collection subscription collection) eqn:Hsame.
  { left. cbn [store events]. unfold writes in *. simpl. by rewrite Hfind. }
  assert (∀ evs,
            writes (EvGetCollection (R10.feed_name request)
                    :: events (find_subscription service
                                 (R10.subscription_id request) st) ++ evs)%list
            = writes evs) as Hpre.
  { intros evs. change (writes (?x :: ?l)) with (writes l).
    by rewrite writes_app, Hfind. }
  apply act_types_10_cases in Hlegal as [Hact | [Hact | Hact]]; rewrite Hact.
  - right; left. exists collection.
    rewrite call_action_subscribe, action_subscribe_other by done.
    cbn [created outcome store events]. split_and!; try done.
    by rewrite <- app_comm_cons, Hpre.
  - destruct subscription as [s|].
    + right; right.
      apply find_subscription_found in Hout as (sid & Hsid & _ & Hs).
      apply other_collection_false in Hsame.
      exists sid, s, collection.
      rewrite call_action_unsubscribe, action_unsubscribe_known.
      cbn [outcome store events]. split_and!; try done.
      by rewrite <- app_comm_cons, Hpre.
    + left. rewrite call_action_unsubscribe, action_unsubscribe_unknown.
      cbn [outcome store events]. split; [done|].
      by rewrite <- app_comm_cons, Hpre.
  - left. rewrite call_action_status. unfold action_status.
    destruct subscription; cbn [bind lookup_call ret outcome store events];
      (split; [done|]); by rewrite <- ?app_comm_cons, Hpre.
Qed.

End Effects.

(** ** How a run ends *)

Section Endings.
Context {Store : Type}.
Variable service : Service Store.
Variable helpers : Helpers.

(** X3.  A run of either handler that ends in a signal has changed
    nothing: the store is as before and the service was not asked to
    create or update anything; the signal answers the request's message
    id. *)
Theorem signal_leaves_store_unchanged (st : Store) :
  (∀ (request : R11.t) e,
     outcome (handle_message11 service helpers request st) = Raise e →
     store (handle_message11 service helpers request st) = st
     ∧ writes (events (handle_message11 service helpers request st)) = []
     ∧ E.in_response_to e = R11.message_id request)
  ∧ (∀ (request : R10.t) e,
       outcome (handle_message10 service helpers request st) = Raise e →
       store (handle_message10 service helpers request st) = st
       ∧ writes (events (handle_message10 service helpers request st)) = []
       ∧ E.in_response_to e = R10.message_id request).
Proof.
  split; intros request e He.
  - apply handle_message11_Raise in He as (? & ? & Hw & _).
    split_and!; try done. by apply writes_nil_Forall.
  - apply handle_message10_Raise in He as (? & ? & Hw & _).
    split_and!; try done. by apply writes_nil_Forall.
Qed.

(** The version-10 handler ends in a response or in a signal. *)
Lemma handle_message10_no_crash (request : R10.t) (st : Store)
    (err : PyError) :
  outcome (handle_message10 service helpers request st) ≠ Crash err.
Proof.
  destruct (handle_message10_run service helpers request st)
    as (subscription & Hout & ->).
  destruct (outcome (validate_request10 request st)) as [[]|e|err'] eqn:Hval.
  - assert (R10.action request ∈ ACT_TYPES_10) as Hlegal.
    { destruct (decide (R10.action request ∈ ACT_TYPES_10)) as [|Hno]; [done|].
      by rewrite (validate_request10_invalid request st Hno) in Hval. }
    cbn zeta.
    destruct (get_collection service (R10.feed_name request) st)
      as [collection|]; [|done].
    destruct (other_collection subscription collection); [done|].
    destruct (outcome (call_action _ _ _ _ _ _ _ _)) eqn:Hact;
      simpl; try done.
    apply call_action_Crash in Hact as [Hno | [[Hpr Hnone] | [? _]]].
    + exfalso. apply Hno.
      apply act_types_10_cases in Hlegal as [-> | [-> | ->]]; compute_done.
    + exfalso.
      apply pause_resume_cases in Hpr as [Hpr | Hpr]; rewrite Hpr in Hlegal;
        by apply act_types_10_cases in Hlegal as [? | [? | ?]].
    + done.
  - done.
  - exfalso. unfold validate_request10 in Hval.
    repeat match type of Hval with
           | context [if ?b then _ else _] => destruct b
           end; done.
Qed.

(** X4.  The table of actions has an entry for exactly the version-11
    action types, which include the version-10 ones, so the lookup of the
    action of a validated request never fails: neither handler ends in a
    Python error, whatever the request and the service are. *)
Theorem handlers_never_crash :
  (∀ action,
     is_Some (getitem (ACTIONS service helpers) action)
     ↔ action ∈ ACT_TYPES_11)
  ∧ (∀ action, action ∈ ACT_TYPES_10 → action ∈ ACT_TYPES_11)
  ∧ (∀ (request : R11.t) (st : Store) err,
       outcome (handle_message11 service helpers request st) ≠ Crash err)
  ∧ (∀ (request : R10.t) (st : Store) err,
       outcome (handle_message10 service helpers request st) ≠ Crash err).
Proof.
  split_and!.
  - intros action. rewrite getitem_ACTIONS. split.
    + repeat match goal with
             | |- context [String.eqb action ?k] =>
                 destruct (String.eqb_spec action k) as [->|?]
             end; intros Hsome; try compute_done.
      by destruct Hsome.
    + intros Hin. apply act_types_11_cases in Hin
        as [-> | [-> | [-> | [-> | ->]]]]; by eexists.
  - intros action Hin.
    apply act_types_10_cases in Hin as [-> | [-> | ->]]; compute_done.
  - intros request st err. apply handle_message11_no_crash.
  - intros request st err. apply handle_message10_no_crash.
Qed.

(** X5.  What validation accepts.  Version 11 accepts a request exactly
    when its action is a version-11 action, UNSUBSCRIBE, PAUSE and RESUME
    come with a subscription id, and, if no subscription was found, the
    action is neither PAUSE nor RESUME nor a STATUS with an id.  Version
    10 accepts a request exactly when its action is a version-10 action
    and UNSUBSCRIBE comes with a subscription id. *)
Theorem validation_accepts_exactly (st : Store) :
  (∀ (request : R11.t) subscription,
     outcome (validate_request11 request subscription st) = Return tt
     ↔ (R11.action request ∈ ACT_TYPES_11
        ∧ (R11.action request ∈ [ACT_UNSUBSCRIBE; ACT_PAUSE; ACT_RESUME] →
           truthy (R11.subscription_id request) = true)
        ∧ (subscription = None →
           (R11.action request ∉ [ACT_PAUSE; ACT_RESUME])
           ∧ ¬ (R11.action request = ACT_STATUS
                ∧ truthy (R11.subscription_id request) = true))))
  ∧ (∀ request : R10.t,
       outcome (validate_request10 request st) = Return tt
       ↔ (R10.action request ∈ ACT_TYPES_10
          ∧ (R10.action request = ACT_UNSUBSCRIBE →
             truthy (R10.subscription_id request) = true))).
Proof.
  split.
  - intros request subscription. unfold validate_request11.
    destruct (str_in (R11.action request) ACT_TYPES_11) eqn:Hlegal; simpl.
    2: { apply str_in_false in Hlegal. split; [done|]. by intros [? _]. }
    apply str_in_spec in Hlegal.
    destruct (str_in (R11.action request)
                [ACT_UNSUBSCRIBE; ACT_PAUSE; ACT_RESUME]) eqn:Hneeds; simpl.
    + apply str_in_spec in Hneeds.
      destruct (truthy (R11.subscription_id request)) eqn:Hid; simpl.
      2: { split; [done|]. intros (_ & Hreq & _). by specialize (Hreq Hneeds). }
      destruct subscription as [s|]; simpl.
      { split; [|done]. intros _. split_and!; done. }
      destruct (str_in (R11.action request) [ACT_PAUSE; ACT_RESUME]) eqn:Hpr;
        simpl.
      * apply str_in_spec in Hpr. split; [done|].
        intros (_ & _ & Hnone). by destruct (Hnone eq_refl).
      * apply str_in_false in Hpr.
        destruct (String.eqb_spec (R11.action request) ACT_STATUS) as [Hs|Hs];
          simpl.
        -- exfalso. rewrite Hs in Hneeds.
           by apply needs_id_cases in Hneeds as [? | [? | ?]].
        -- split; [|done]. intros _. split_and!; try done.
           intros _. split; [done|]. by intros [? _].
    + apply str_in_false in Hneeds.
      assert (R11.action request ∉ [ACT_PAUSE; ACT_RESUME]) as Hpr.
      { intros Hin. apply Hneeds.
        apply pause_resume_cases in Hin as [-> | ->]; compute_done. }
      destruct subscription as [s|]; simpl.
      { split; [|done]. intros _. split_and!; done. }
      apply str_in_false in Hpr as Hpr'. rewrite Hpr'. simpl.
      destruct (String.eqb_spec (R11.action request) ACT_STATUS) as [Hs|Hs];
        simpl.
      * destruct (truthy (R11.subscription_id request)) eqn:Hid; simpl.
        -- split; [done|]. intros (_ & _ & Hnone).
           destruct (Hnone eq_refl) as [_ Hno]. by destruct Hno.
        -- split; [|done]. intros _. split_and!; try done.
           intros _. split; [done|]. by intros [_ ?].
      * split; [|done]. intros _. split_and!; try done.
        intros _. split; [done|]. by intros [? _].
  - intros request. unfold validate_request10.
    destruct (str_in (R10.action request) ACT_TYPES_10) eqn:Hlegal; simpl.
    2: { apply str_in_false in Hlegal. split; [done|]. by intros [? _]. }
    apply str_in_spec in Hlegal.
    destruct (String.eqb_spec (R10.action request) ACT_UNSUBSCRIBE)
      as [Hu|Hu]; simpl.
    + destruct (truthy (R10.subscription_id request)) eqn:Hid; simpl.
      * split; [|done]. intros _. split; done.
      * split; [done|]. intros [_ Hreq]. by specialize (Hreq Hu).
    + split; [|done]. intros _. split; done.
Qed.
End Endings.

(** ** What a response is made of *)

Section Envelope.
Context {Store : Type}.
Variable service : Service Store.
Variable helpers : Helpers.

(** An action makes at most one call, on the store of subscriptions. *)
Lemma call_action_events action request collection subscription version
    (st : Store) :
  events (call_action service helpers action request collection subscription
            version st) = []
  ∨ events (call_action service helpers action request collection
              subscription version st) = [EvGetSubscriptions]
  ∨ (∃ s, events (call_action service helpers action request collection
                    subscription version st) = [EvCreateSubscription s])
  ∨ (∃ s new_status,
       events (call_action service helpers action request collection
                 subscription version st)
       = [EvUpdateSubscription s new_status]).
Proof.
  destruct (call_action_effect service helpers action request collection
              subscription version st)
    as [[_ Hw] | [(rt & accepted & _ & ->) | (s & new_status & _ & -> & _)]];
    [| right; right; left; eexists; reflexivity
     | right; right; right; do 2 eexists; reflexivity].
  revert Hw. unfold call_action. rewrite getitem_ACTIONS.
  repeat match goal with
         | |- context [String.eqb action ?k] =>
             destruct (String.eqb_spec action k) as [->|?]
         end; try (by left).
  - destruct (action_subscribe_cases service helpers request collection
                subscription version st)
      as [(e' & -> & _) | [[-> _] | (s & ->)]]; by auto.
  - destruct subscription; by auto.
  - destruct subscription; [|by left]. rewrite action_pause_run.
    case_bool_decide; by auto.
  - destruct subscription; [|by left]. rewrite action_resume_run.
    case_bool_decide; by auto.
  - destruct subscription; by auto.
Qed.

Lemma call_action_no_polling action request collection subscription version
    (st : Store) (c : CollectionEntity.t) :
  EvGetPollingServices c
  ∉ events (call_action service helpers action request collection
              subscription version st).
Proof.
  intros Hin. apply list_elem_of_In in Hin.
  destruct (call_action_events action request collection subscription
              version st) as [H | [H | [[s H] | (s & n & H)]]];
    rewrite H in Hin; simpl in Hin; intuition discriminate.
Qed.

Lemma find_subscription_no_polling (sid : option string) (st : Store)
    (c : CollectionEntity.t) :
  EvGetPollingServices c ∉ events (find_subscription service sid st).
Proof.
  intros Hin. apply list_elem_of_In in Hin.
  destruct sid as [[|a rest]|]; simpl in Hin; intuition discriminate.
Qed.

(** X6.  A response answers its request: it carries the request's message
    id as [in_response_to], the name of the collection that the request's
    name resolved to, the banner of the service and a generated id.  The
    polling services of that collection are asked for once, as the last
    call of the run, and only by a run that ends in a response. *)
Theorem response_answers_request (st : Store) :
  (∀ (request : R11.t) response,
     outcome (handle_message11 service helpers request st) = Return response →
     ∃ collection evs,
       get_collection service (R11.collection_name request) st
       = Some collection
       ∧ tm11.ManageCollectionSubscriptionResponse.message_id response
         = generate_id helpers
       ∧ tm11.ManageCollectionSubscriptionResponse.in_response_to response
         = R11.message_id request
       ∧ tm11.ManageCollectionSubscriptionResponse.collection_name response
         = CollectionEntity.name collection
       ∧ tm11.ManageCollectionSubscriptionResponse.message response
         = subscription_message service
       ∧ events (handle_message11 service helpers request st)
         = (evs ++ [EvGetPollingServices collection])%list
       ∧ ∀ c, EvGetPollingServices c ∉ evs)
  ∧ (∀ (request : R10.t) response,
       outcome (handle_message10 service helpers request st) = Return response →
       ∃ collection evs,
         get_collection service (R10.feed_name request) st = Some collection
         ∧ tm10.ManageFeedSubscriptionResponse.message_id response
           = generate_id helpers
         ∧ tm10.ManageFeedSubscriptionResponse.in_response_to response
           = R10.message_id request
         ∧ tm10.ManageFeedSubscriptionResponse.feed_name response
           = CollectionEntity.name collection
         ∧ tm10.ManageFeedSubscriptionResponse.message response
           = subscription_message service
         ∧ events (handle_message10 service helpers request st)
           = (evs ++ [EvGetPollingServices collection])%list
         ∧ ∀ c, EvGetPollingServices c ∉ evs)
  ∧ (∀ (request : R11.t) c,
       EvGetPollingServices c
       ∈ events (handle_message11 service helpers request st) →
       ∃ response,
         outcome (handle_message11 service helpers request st)
         = Return response)
  ∧ (∀ (request : R10.t) c,
       EvGetPollingServices c
       ∈ events (handle_message10 service helpers request st) →
       ∃ response,
         outcome (handle_message10 service helpers request st)
         = Return response).
Proof.
  split_and!.
  - intros request response.
    destruct (handle_message11_run service helpers request st)
      as (subscription & Hout & ->). cbn zeta.
    destruct (outcome (validate_request11 request subscription st));
      [|done..].
    destruct (get_collection service (R11.collection_name request) st)
      as [collection|] eqn:Hcoll; [|done].
    destruct (other_collection subscription collection); [done|].
    destruct (outcome (call_action _ _ _ _ _ _ _ _)) as [result| |] eqn:Hact;
      [|done..].
    cbn [outcome events]. intros [= <-].
    eexists collection, _. split_and!; try done.
    + by rewrite !app_assoc.
    + intros c. rewrite !elem_of_app, list_elem_of_singleton.
      intros [[Hin | [=]] | Hin].
      * by apply find_subscription_no_polling in Hin.
      * by apply call_action_no_polling in Hin.
  - intros request response.
    destruct (handle_message10_run service helpers request st)
      as (subscription & Hout & ->).
    destruct (outcome (validate_request10 request st)); [|done..].
    cbn zeta.
    destruct (get_collection service (R10.feed_name request) st)
      as [collection|] eqn:Hcoll; [|done].
    destruct (other_collection subscription collection); [done|].
    destruct (outcome (call_action _ _ _ _ _ _ _ _)) as [result| |] eqn:Hact;
      [|done..].
    cbn [outcome events]. intros [= <-].
    eexists collection, _. split_and!; try done.
    + by rewrite !app_assoc.
    + intros c. rewrite !elem_of_app, elem_of_cons.
      intros [[[=] | Hin] | Hin].
      * by apply find_subscription_no_polling in Hin.
      * by apply call_action_no_polling in Hin.
  - intros request c.
    destruct (handle_message11_run service helpers request st)
      as (subscription & Hout & ->). cbn zeta.
    pose proof (find_subscription_no_polling
                  (R11.subscription_id request) st c) as Hfind.
    destruct (outcome (validate_request11 request subscription st));
      [|done..].
    destruct (get_collection service (R11.collection_name request) st)
      as [collection|] eqn:Hcoll.
    2: { cbn [events]. rewrite elem_of_app, list_elem_of_singleton.
         by intros [? | [=]]. }
    destruct (other_collection subscription collection).
    { cbn [events]. rewrite elem_of_app, list_elem_of_singleton.
      by intros [? | [=]]. }
    destruct (outcome (call_action _ _ _ _ _ _ _ _)) as [result| |] eqn:Hact;
      cbn [outcome events]; [by eauto|..];
      rewrite !elem_of_app, list_elem_of_singleton;
      intros [? | [[=] | Hin]]; try done;
      by apply call_action_no_polling in Hin.
  - intros request c.
    destruct (handle_message10_run service helpers request st)
      as (subscription & Hout & ->).
    pose proof (find_subscription_no_polling
                  (R10.subscription_id request) st c) as Hfind.
    destruct (outcome (validate_request10 request st));
      [|by intros ?%elem_of_nil..].
    cbn zeta.
    destruct (get_collection service (R10.feed_name request) st)
      as [collection|] eqn:Hcoll.
    2: { cbn [events]. rewrite list_elem_of_singleton. by intros [=]. }
    destruct (other_collection subscription collection).
    { cbn [events]. rewrite elem_of_cons. by intros [[=] | ?]. }
    destruct (outcome (call_action _ _ _ _ _ _ _ _)) as [result| |] eqn:Hact;
      cbn [outcome events]; [by eauto|..];
      rewrite elem_of_app, elem_of_cons;
      intros [[[=] | ?] | Hin]; try done;
      by apply call_action_no_polling in Hin.
Qed.
End Envelope.

(** ** STATUS, SUBSCRIBE and the collection of a request *)

Section Requests.
Context {Store : Type}.
Variable service : Service Store.
Variable helpers : Helpers.

Lemma validate_request11_subscribe (request : R11.t) subscription
    (st : Store) :
  R11.action request = ACT_SUBSCRIBE →
  validate_request11 request subscription st = Build_Run (Return ()) st [].
Proof.
  intros Hact. unfold validate_request11. rewrite Hact.
  by destruct subscription.
Qed.

Lemma validate_request11_status_all (request : R11.t) (st : Store) :
  R11.action request = ACT_STATUS →
  truthy (R11.subscription_id request) = false →
  validate_request11 request None st = Build_Run (Return ()) st [].
Proof.
  intros Hact Hid. unfold validate_request11. by rewrite Hact, Hid.
Qed.

(** X7.  STATUS without a subscription id, for a collection the service
    knows, answers with one instance for every subscription the service
    has, in the order the service gives them and without regard to the
    collection they belong to; with no subscription the response has no
    instance.  Only lookups are made and the store is as before.  For a
    collection the service does not know the answer is NOT_FOUND with the
    detail [{ITEM: name}].  The version-10 handler answers a STATUS whose
    subscription id is not known as it answers one without an id; the
    version-11 handler answers it with NOT_FOUND and the detail
    [{ITEM: subscription_id}], before it looks the collection up. *)
Theorem status_lists_all_subscriptions (st : Store) :
  (∀ (request : R11.t) collection,
     R11.action request = ACT_STATUS →
     truthy (R11.subscription_id request) = false →
     get_collection service (R11.collection_name request) st
     = Some collection →
     handle_message11 service helpers request st
     = Build_Run
         (Return
            (response11 service helpers request collection
               (map (fun s =>
                       subscription_to_subscription_instance helpers s
                         (get_polling_services service collection st) 11
                         (SubscriptionEntity.params s))
                  (get_subscriptions service st))))
         st
         [EvGetCollection (R11.collection_name request); EvGetSubscriptions;
          EvGetPollingServices collection])
  ∧ (∀ (request : R10.t) collection,
       R10.action request = ACT_STATUS →
       truthy (R10.subscription_id request) = false →
       get_collection service (R10.feed_name request) st = Some collection →
       handle_message10 service helpers request st
       = Build_Run
           (Return
              (response10 service helpers request collection
                 (map (fun s =>
                         subscription_to_subscription_instance helpers s
                           (get_polling_services service collection st) 10
                           None)
                    (get_subscriptions service st))))
           st
           [EvGetCollection (R10.feed_name request); EvGetSubscriptions;
            EvGetPollingServices collection])
  ∧ (∀ (request : R10.t) sid collection,
       R10.action request = ACT_STATUS →
       R10.subscription_id request = Some sid →
       truthy (Some sid) = true →
       get_subscription service sid st = None →
       get_collection service (R10.feed_name request) st = Some collection →
       handle_message10 service helpers request st
       = Build_Run
           (Return
              (response10 service helpers request collection
                 (map (fun s =>
                         subscription_to_subscription_instance helpers s
                           (get_polling_services service collection st) 10
                           None)
                    (get_subscriptions service st))))
           st
           [EvGetCollection (R10.feed_name request); EvGetSubscription sid;
            EvGetSubscriptions; EvGetPollingServices collection])
  ∧ (∀ (request : R11.t) sid,
       R11.action request = ACT_STATUS →
       R11.subscription_id request = Some sid →
       truthy (Some sid) = true →
       get_subscription service sid st = None →
       handle_message11 service helpers request st
       = Build_Run
           (Raise (E.make ST_NOT_FOUND None (R11.message_id request)
                     (Some {[ SD_ITEM := DStr sid ]})))
           st [EvGetSubscription sid])
  ∧ (∀ request : R11.t,
       R11.action request = ACT_STATUS →
       truthy (R11.subscription_id request) = false →
       get_collection service (R11.collection_name request) st = None →
       handle_message11 service helpers request st
       = Build_Run
           (Raise (E.make ST_NOT_FOUND
                     (Some "The collection you requested was not found")
                     (R11.message_id request)
                     (Some {[ SD_ITEM :=
                                DStr (R11.collection_name request) ]})))
           st [EvGetCollection (R11.collection_name request)])
  ∧ (∀ request : R10.t,
       R10.action request = ACT_STATUS →
       get_collection service (R10.feed_name request) st = None →
       handle_message10 service helpers request st
       = Build_Run
           (Raise (E.make ST_NOT_FOUND
                     (Some "The collection you requested was not found")
                     (R10.message_id request)
                     (Some {[ SD_ITEM := DStr (R10.feed_name request) ]})))
           st [EvGetCollection (R10.feed_name request)]).
Proof.
  split_and!.
  - intros request collection Hact Hid Hcoll.
    destruct (handle_message11_run service helpers request st)
      as (subscription & Hout & ->).
    rewrite find_subscription_falsy in * by done.
    simpl in Hout. injection Hout as <-.
    rewrite validate_request11_status_all by done.
    cbn [outcome events]. cbn zeta. rewrite Hcoll. cbn [other_collection].
    by rewrite Hact, call_action_status.
  - intros request collection Hact Hid Hcoll.
    destruct (handle_message10_run service helpers request st)
      as (subscription & Hout & ->).
    rewrite find_subscription_falsy in * by done.
    simpl in Hout. injection Hout as <-.
    rewrite validate_request10_legal;
      [| rewrite Hact; compute_done | by rewrite Hact].
    cbn [outcome events]. cbn zeta. rewrite Hcoll. cbn [other_collection].
    by rewrite Hact, call_action_status.
  - intros request sid collection Hact Hsid Hid Hnone Hcoll.
    destruct (handle_message10_run service helpers request st)
      as (subscription & Hout & ->).
    rewrite Hsid in *. rewrite find_subscription_Some in * by done.
    simpl in Hout. rewrite Hnone in Hout. injection Hout as <-.
    rewrite validate_request10_legal;
      [| rewrite Hact; compute_done | by rewrite Hact].
    cbn [outcome events]. cbn zeta. rewrite Hcoll. cbn [other_collection].
    by rewrite Hact, call_action_status.
  - intros request sid Hact Hsid Hid Hnone.
    destruct (handle_message11_run service helpers request st)
      as (subscription & Hout & ->).
    rewrite Hsid in *. rewrite find_subscription_Some in * by done.
    simpl in Hout. rewrite Hnone in Hout. injection Hout as <-.
    rewrite validate_request11_unknown;
      [| rewrite Hact; compute_done | by rewrite Hsid].
    by rewrite Hsid.
  - intros request Hact Hid Hcoll.
    destruct (handle_message11_run service helpers request st)
      as (subscription & Hout & ->).
    rewrite find_subscription_falsy in * by done.
    simpl in Hout. injection Hout as <-.
    rewrite validate_request11_status_all by done.
    cbn [outcome events]. cbn zeta. by rewrite Hcoll.
  - intros request Hact Hcoll.
    destruct (handle_message10_run service helpers request st)
      as (subscription & Hout & ->).
    rewrite validate_request10_legal;
      [| rewrite Hact; compute_done | by rewrite Hact].
    cbn [outcome events]. cbn zeta. by rewrite Hcoll.
Qed.

(** X8.  A request that passes validation and names a collection the
    service does not know is answered with NOT_FOUND, the message that
    the collection was not found and the detail [{ITEM: name}]; nothing
    was written, and the version-10 handler has made no other call, not
    even the lookup of the subscription. *)
Theorem unknown_collection_not_found (st : Store) :
  (∀ (request : R11.t) subscription,
     outcome (find_subscription service (R11.subscription_id request) st)
     = Return subscription →
     outcome (validate_request11 request subscription st) = Return () →
     get_collection service (R11.collection_name request) st = None →
     handle_message11 service helpers request st
     = Build_Run
         (Raise (E.make ST_NOT_FOUND
                   (Some "The collection you requested was not found")
                   (R11.message_id request)
                   (Some {[ SD_ITEM := DStr (R11.collection_name request) ]})))
         st
         (events (find_subscription service (R11.subscription_id request) st)
          ++ [EvGetCollection (R11.collection_name request)])%list)
  ∧ (∀ request : R10.t,
       outcome (validate_request10 request st) = Return () →
       get_collection service (R10.feed_name request) st = None →
       handle_message10 service helpers request st
       = Build_Run
           (Raise (E.make ST_NOT_FOUND
                     (Some "The collection you requested was not found")
                     (R10.message_id request)
                     (Some {[ SD_ITEM := DStr (R10.feed_name request) ]})))
           st [EvGetCollection (R10.feed_name request)]).
Proof.
  split.
  - intros request subscription Hfound Hval Hcoll.
    destruct (handle_message11_run service helpers request st)
      as (subscription' & Hout & ->).
    rewrite Hfound in Hout. injection Hout as <-.
    rewrite Hval. cbn zeta. by rewrite Hcoll.
  - intros request Hval Hcoll.
    destruct (handle_message10_run service helpers request st)
      as (subscription & Hout & ->).
    rewrite Hval. cbn zeta. by rewrite Hcoll.
Qed.

(** X9.  SUBSCRIBE to a collection the service knows.  It never reuses or
    updates a subscription.  When the request's subscription id names a
    subscription of another collection, the answer is NOT_FOUND with the
    detail [{ITEM: name}] and nothing is created.  Otherwise, with or
    without an id, the version-10 handler asks the service to create a
    new ACTIVE subscription of the collection without response type and
    content bindings; the version-11 handler asks for one with the
    response type of the request and the accepted bindings, none when no
    binding was requested and the matching ones otherwise, unless
    bindings were requested and none matches: then the answer is
    UNSUPPORTED_CONTENT_BINDING and nothing is created.  A creation is
    answered with the one instance made from what the service returns. *)
Theorem subscribe_creates_a_subscription (collection : CollectionEntity.t)
    (st : Store) :
  (∀ (request : R10.t) subscription,
     R10.action request = ACT_SUBSCRIBE →
     get_collection service (R10.feed_name request) st = Some collection →
     outcome (find_subscription service (R10.subscription_id request) st)
     = Return subscription →
     (other_collection subscription collection = true →
      handle_message10 service helpers request st
      = Build_Run
          (Raise (E.make ST_NOT_FOUND None (R10.message_id request)
                    (Some {[ SD_ITEM := DStr (R10.feed_name request) ]})))
          st
          (EvGetCollection (R10.feed_name request)
           :: events (find_subscription service
                        (R10.subscription_id request) st)))
     ∧ (other_collection subscription collection = false →
        handle_message10 service helpers request st
        = Build_Run
            (Return
               (response10 service helpers request collection
                  [subscription_to_subscription_instance helpers
                     (create_subscription service
                        (new_subscription collection None []) st).1
                     (get_polling_services service collection
                        (create_subscription service
                           (new_subscription collection None []) st).2)
                     10 None]))
            (create_subscription service
               (new_subscription collection None []) st).2
            (EvGetCollection (R10.feed_name request)
             :: events (find_subscription service
                          (R10.subscription_id request) st)
             ++ [EvCreateSubscription (new_subscription collection None []);
                 EvGetPollingServices collection])%list))
  ∧ (∀ (request : R11.t) subscription,
       R11.action request = ACT_SUBSCRIBE →
       get_collection service (R11.collection_name request) st
       = Some collection →
       outcome (find_subscription service (R11.subscription_id request) st)
       = Return subscription →
       (other_collection subscription collection = true →
        handle_message11 service helpers request st
        = Build_Run
            (Raise (E.make ST_NOT_FOUND None (R11.message_id request)
                      (Some {[ SD_ITEM :=
                                 DStr (R11.collection_name request) ]})))
            st
            (events (find_subscription service
                       (R11.subscription_id request) st)
             ++ [EvGetCollection (R11.collection_name request)])%list)
       ∧ (other_collection subscription collection = false →
          SubscriptionParameters.content_bindings
            (R11.subscription_parameters request) ≠ [] →
          parse_content_bindings helpers
            (SubscriptionParameters.content_bindings
               (R11.subscription_parameters request)) 11 ≠ [] →
          get_matching_bindings helpers collection
            (parse_content_bindings helpers
               (SubscriptionParameters.content_bindings
                  (R11.subscription_parameters request)) 11) = [] →
          handle_message11 service helpers request st
          = Build_Run
              (Raise (E.make ST_UNSUPPORTED_CONTENT_BINDING None
                        (R11.message_id request)
                        (Some {[ SD_SUPPORTED_CONTENT :=
                                   DList (get_supported_content helpers
                                            collection 11) ]})))
              st
              (events (find_subscription service
                         (R11.subscription_id request) st)
               ++ [EvGetCollection (R11.collection_name request)])%list)
       ∧ (∀ accepted,
            other_collection subscription collection = false →
            (SubscriptionParameters.content_bindings
               (R11.subscription_parameters request) = [] ∧ accepted = []
             ∨ SubscriptionParameters.content_bindings
                 (R11.subscription_parameters request) ≠ []
               ∧ accepted
                 = get_matching_bindings helpers collection
                     (parse_content_bindings helpers
                        (SubscriptionParameters.content_bindings
                           (R11.subscription_parameters request)) 11)
               ∧ (parse_content_bindings helpers
                    (SubscriptionParameters.content_bindings
                       (R11.subscription_parameters request)) 11 = []
                  ∨ accepted ≠ [])) →
            handle_message11 service helpers request st
            = Build_Run
                (Return
                   (response11 service helpers request collection
                      [subscription_to_subscription_instance helpers
                         (create_subscription service
                            (new_subscription collection
                               (Some (SubscriptionParameters.response_type
                                        (R11.subscription_parameters request)))
                               accepted) st).1
                         (get_polling_services service collection
                            (create_subscription service
                               (new_subscription collection
                                  (Some (SubscriptionParameters.response_type
                                           (R11.subscription_parameters
                                              request)))
                                  accepted) st).2)
                         11
                         (SubscriptionEntity.params
                            (create_subscription service
                               (new_subscription collection
                                  (Some (SubscriptionParameters.response_type
                                           (R11.subscription_parameters
                                              request)))
                                  accepted) st).1)]))
                (create_subscription service
                   (new_subscription collection
                      (Some (SubscriptionParameters.response_type
                               (R11.subscription_parameters request)))
                      accepted) st).2
                (events (find_subscription service
                           (R11.subscription_id request) st)
                 ++ [EvGetCollection (R11.collection_name request);
                     EvCreateSubscription
                       (new_subscription collection
                          (Some (SubscriptionParameters.response_type
                                   (R11.subscription_parameters request)))
                          accepted);
                     EvGetPollingServices collection])%list)).
Proof.
  split.
  - intros request subscription Hact Hcoll Hfound.
    destruct (handle_message10_run service helpers request st)
      as (subscription' & Hout & ->).
    rewrite Hfound in Hout. injection Hout as <-.
    rewrite validate_request10_legal;
      [| rewrite Hact; compute_done | by rewrite Hact].
    cbn [outcome events]. cbn zeta. rewrite Hcoll.
    split; intros ->; [done|].
    by rewrite Hact, call_action_subscribe, action_subscribe_other.
  - intros request subscription Hact Hcoll Hfound.
    destruct (handle_message11_run service helpers request st)
      as (subscription' & Hout & ->).
    rewrite Hfound in Hout. injection Hout as <-.
    rewrite validate_request11_subscribe by done.
    cbn [outcome events]. cbn zeta. rewrite Hcoll.
    split_and!.
    + by intros ->.
    + intros -> Hbs Hreq Hnone.
      rewrite Hact, call_action_subscribe, action_subscribe_11. cbn zeta.
      destruct (SubscriptionParameters.content_bindings
                  (R11.subscription_parameters request)) as [|b bs]; [done|].
      by rewrite Hnone, nonempty_true.
    + intros accepted -> Hneg.
      rewrite Hact, call_action_subscribe, action_subscribe_11. cbn zeta.
      destruct Hneg as [[-> ->] | (Hbs & -> & Hacc)]; [done|].
      destruct (SubscriptionParameters.content_bindings
                  (R11.subscription_parameters request)) as [|b bs]; [done|].
      destruct Hacc as [-> | Hacc]; [done|].
      by rewrite (nonempty_true _ Hacc), andb_false_r.
Qed.
End Requests.

(** ** The shape of a signal *)

Section Shapes.
Context {Store : Type}.
Variable service : Service Store.
Variable helpers : Helpers.

(** The signals of version-11 validation. *)
Lemma validate_request11_shape (request : R11.t) subscription (st : Store)
    (e : E.t) :
  outcome (validate_request11 request subscription st) = Raise e →
  (E.status_type e = ST_BAD_MESSAGE ∧ is_Some (E.message e)
   ∧ E.status_details e = None)
  ∨ (∃ sid, R11.subscription_id request = Some sid
            ∧ e = not_found (DStr sid) (R11.message_id request)).
Proof.
  unfold validate_request11.
  destruct (str_in (R11.action request) ACT_TYPES_11); simpl.
  2: { intros [= <-]. left. by eauto. }
  destruct (str_in (R11.action request)
              [ACT_UNSUBSCRIBE; ACT_PAUSE; ACT_RESUME]) eqn:Hneeds; simpl.
  - destruct (R11.subscription_id request) as [[|a rest]|] eqn:Hsid; simpl;
      try (intros [= <-]; left; by eauto).
    destruct (negb (bool_decide (is_Some subscription)) && _); simpl; [|done].
    intros [= <-]. right. by eexists.
  - destruct (negb (bool_decide (is_Some subscription)) && _) eqn:Hnf;
      simpl; [|done].
    intros [= <-]. right.
    destruct (R11.subscription_id request) as [[|a rest]|] eqn:Hsid.
    + exfalso. apply andb_prop in Hnf as [_ Hnf].
      apply orb_prop in Hnf as [Hnf | Hnf].
      * apply str_in_spec in Hnf. apply str_in_false in Hneeds.
        apply Hneeds. apply pause_resume_cases in Hnf as [-> | ->];
          compute_done.
      * by apply andb_prop in Hnf as [_ ?].
    + by eexists.
    + exfalso. apply andb_prop in Hnf as [_ Hnf].
      apply orb_prop in Hnf as [Hnf | Hnf].
      * apply str_in_spec in Hnf. apply str_in_false in Hneeds.
        apply Hneeds. apply pause_resume_cases in Hnf as [-> | ->];
          compute_done.
      * by apply andb_prop in Hnf as [_ ?].
Qed.

Lemma validate_request10_shape (request : R10.t) (st : Store) (e : E.t) :
  outcome (validate_request10 request st) = Raise e →
  E.status_type e = ST_BAD_MESSAGE ∧ is_Some (E.message e)
  ∧ E.status_details e = None.
Proof.
  unfold validate_request10.
  destruct (str_in (R10.action request) ACT_TYPES_10); simpl.
  2: { intros [= <-]. by eauto. }
  destruct ((R10.action request =? ACT_UNSUBSCRIBE)%string
            && negb (truthy (R10.subscription_id request))); simpl; [|done].
  intros [= <-]. by eauto.
Qed.

(** X10.  The signals of the handlers.  A BAD_MESSAGE has a message and
    no details.  A NOT_FOUND has the one detail ITEM, which is the
    collection name of the request or its subscription id.  An
    UNSUPPORTED_CONTENT_BINDING, which only a version-11 SUBSCRIBE raises,
    has no message and the one detail SUPPORTED_CONTENT, the supported
    content of the collection the request names.  The version-10 handler
    raises BAD_MESSAGE and NOT_FOUND for the feed name only. *)
Theorem signals_have_their_details (st : Store) :
  (∀ (request : R11.t) e,
     outcome (handle_message11 service helpers request st) = Raise e →
     (E.status_type e = ST_BAD_MESSAGE ∧ is_Some (E.message e)
      ∧ E.status_details e = None)
     ∨ (E.status_type e = ST_NOT_FOUND
        ∧ (E.status_details e
           = Some {[ SD_ITEM := DStr (R11.collection_name request) ]}
           ∨ ∃ sid, R11.subscription_id request = Some sid
                    ∧ E.status_details e = Some {[ SD_ITEM := DStr sid ]}))
     ∨ (∃ collection,
          R11.action request = ACT_SUBSCRIBE
          ∧ get_collection service (R11.collection_name request) st
            = Some collection
          ∧ e = E.make ST_UNSUPPORTED_CONTENT_BINDING None
                  (R11.message_id request)
                  (Some {[ SD_SUPPORTED_CONTENT :=
                             DList (get_supported_content helpers
                                      collection 11) ]})))
  ∧ (∀ (request : R10.t) e,
       outcome (handle_message10 service helpers request st) = Raise e →
       (E.status_type e = ST_BAD_MESSAGE ∧ is_Some (E.message e)
        ∧ E.status_details e = None)
       ∨ (E.status_type e = ST_NOT_FOUND
          ∧ E.status_details e
            = Some {[ SD_ITEM := DStr (R10.feed_name request) ]})).
Proof.
  split.
  - intros request e.
    destruct (handle_message11_run service helpers request st)
      as (subscription & Hout & ->). cbn zeta.
    destruct (outcome (validate_request11 request subscription st))
      as [[]|e'|] eqn:Hval; [| |done].
    + destruct (get_collection service (R11.collection_name request) st)
        as [collection|] eqn:Hcoll.
      2: { simpl. intros [= <-]. right; left. by auto. }
      destruct (other_collection subscription collection).
      { simpl. intros [= <-]. right; left. by auto. }
      destruct (outcome (call_action _ _ _ _ _ _ _ _)) eqn:Hact;
        simpl; try done.
      intros [= ->].
      pose proof Hact as Hraise.
      apply call_action_Raise in Hraise as (Hsub & _ & _ & _ & _).
      right; right. exists collection. split_and!; try done.
      rewrite Hsub, call_action_subscribe, action_subscribe_11 in Hact.
      cbn zeta in Hact.
      destruct (SubscriptionParameters.content_bindings
                  (R11.subscription_parameters request)); [done|].
      destruct (nonempty _ && negb (nonempty _)); [|done].
      simpl in Hact. by injection Hact as <-.
    + simpl. intros [= ->].
      apply validate_request11_shape in Hval as [? | (sid & Hsid & ->)];
        [by left|].
      right; left. split; [done|]. right. by eauto.
  - intros request e.
    destruct (handle_message10_run service helpers request st)
      as (subscription & Hout & ->).
    destruct (outcome (validate_request10 request st))
      as [[]|e'|] eqn:Hval; [| |done].
    + cbn zeta.
      destruct (get_collection service (R10.feed_name request) st)
        as [collection|] eqn:Hcoll.
      2: { simpl. intros [= <-]. right. by auto. }
      destruct (other_collection subscription collection).
      { simpl. intros [= <-]. right. by auto. }
      destruct (outcome (call_action _ _ _ _ _ _ _ _)) eqn:Hact;
        simpl; try done.
      intros [= ->].
      by apply call_action_Raise in Hact as (_ & ? & _).
    + simpl. intros [= ->].
      apply validate_request10_shape in Hval. by left.
Qed.
End Shapes.

(** ** PAUSE and RESUME requests *)

Section PauseResume.
Context {Store : Type}.
Variable service : Service Store.
Variable helpers : Helpers.

(** The run of a PAUSE or RESUME request for a subscription of the
    collection it names. *)
Lemma handle_message11_transition (request : R11.t) (sid : string)
    (s : SubscriptionEntity.t) (collection : CollectionEntity.t)
    (st : Store) :
  R11.action request ∈ [ACT_PAUSE; ACT_RESUME] →
  R11.subscription_id request = Some sid →
  truthy (Some sid) = true →
  get_subscription service sid st = Some s →
  get_collection service (R11.collection_name request) st = Some collection →
  SubscriptionEntity.collection_id s = Some (CollectionEntity.id collection) →
  handle_message11 service helpers request st
  = let act :=
      call_action service helpers (R11.action request) (Request11 request)
        collection (Some s) 11 st in
    match outcome act with
    | Return result =>
        Build_Run
          (Return
             (response11 service helpers request collection
                (map (fun s' =>
                        subscription_to_subscription_instance helpers s'
                          (get_polling_services service collection (store act))
                          11 (SubscriptionEntity.params s'))
                   (as_list result))))
          (store act)
          ([EvGetSubscription sid;
            EvGetCollection (R11.collection_name request)]
           ++ events act ++ [EvGetPollingServices collection])%list
    | Raise e =>
        Build_Run (Raise e) (store act)
          ([EvGetSubscription sid;
            EvGetCollection (R11.collection_name request)] ++ events act)%list
    | Crash err =>
        Build_Run (Crash err) (store act)
          ([EvGetSubscription sid;
            EvGetCollection (R11.collection_name request)] ++ events act)%list
    end.
Proof.
  intros Hact Hsid Hid Hs Hcoll Hsame.
  destruct (handle_message11_run service helpers request st)
    as (subscription & Hout & ->).
  rewrite Hsid in *. rewrite find_subscription_Some in * by done.
  simpl in Hout. rewrite Hs in Hout. injection Hout as <-.
  rewrite validate_request11_found;
    [| apply pause_resume_cases in Hact as [-> | ->]; compute_done
     | by rewrite Hsid].
  cbn [outcome events]. cbn zeta.
  by rewrite Hcoll, other_collection_same.
Qed.

(** X11.  A PAUSE or RESUME request with the id of a subscription the
    service has.  When the collection the request names is not known, or
    is not the collection of the subscription, the answer is NOT_FOUND
    with the detail [{ITEM: name}] and nothing is changed.  When it is the
    collection of the subscription, PAUSE of a PAUSED subscription and
    RESUME of a subscription that is not PAUSED are answered with the
    instance of the subscription as it is, after lookups only and with
    the store as before; PAUSE of a subscription that is not PAUSED and
    RESUME of a PAUSED one make the one update, to PAUSED and to ACTIVE,
    and are answered with the instance of the subscription the service
    returns. *)
Theorem pause_and_resume_requests (request : R11.t) (sid : string)
    (s : SubscriptionEntity.t) (st : Store) :
  R11.action request ∈ [ACT_PAUSE; ACT_RESUME] →
  R11.subscription_id request = Some sid →
  truthy (Some sid) = true →
  get_subscription service sid st = Some s →
  (get_collection service (R11.collection_name request) st = None →
   handle_message11 service helpers request st
   = Build_Run
       (Raise (E.make ST_NOT_FOUND
                 (Some "The collection you requested was not found")
                 (R11.message_id request)
                 (Some {[ SD_ITEM := DStr (R11.collection_name request) ]})))
       st
       [EvGetSubscription sid; EvGetCollection (R11.collection_name request)])
  ∧ (∀ collection,
       get_collection service (R11.collection_name request) st
       = Some collection →
       SubscriptionEntity.collection_id s
       ≠ Some (CollectionEntity.id collection) →
       handle_message11 service helpers request st
       = Build_Run
           (Raise (E.make ST_NOT_FOUND None (R11.message_id request)
                     (Some {[ SD_ITEM :=
                                DStr (R11.collection_name request) ]})))
           st
           [EvGetSubscription sid;
            EvGetCollection (R11.collection_name request)])
  ∧ (∀ collection,
       get_collection service (R11.collection_name request) st
       = Some collection →
       SubscriptionEntity.collection_id s
       = Some (CollectionEntity.id collection) →
       (R11.action request = ACT_PAUSE ∧ SubscriptionEntity.status s = PAUSED
        ∨ R11.action request = ACT_RESUME
          ∧ SubscriptionEntity.status s ≠ PAUSED →
        handle_message11 service helpers request st
        = Build_Run
            (Return
               (response11 service helpers request collection
                  [subscription_to_subscription_instance helpers s
                     (get_polling_services service collection st) 11
                     (SubscriptionEntity.params s)]))
            st
            [EvGetSubscription sid;
             EvGetCollection (R11.collection_name request);
             EvGetPollingServices collection])
       ∧ (∀ new_status,
            R11.action request = ACT_PAUSE
            ∧ SubscriptionEntity.status s ≠ PAUSED ∧ new_status = PAUSED
            ∨ R11.action request = ACT_RESUME
              ∧ SubscriptionEntity.status s = PAUSED ∧ new_status = ACTIVE →
            handle_message11 service helpers request st
            = Build_Run
                (Return
                   (response11 service helpers request collection
                      [subscription_to_subscription_instance helpers
                         (update_subscription service s new_status st).1
                         (get_polling_services service collection
                            (update_subscription service s new_status st).2)
                         11
                         (SubscriptionEntity.params
                            (update_subscription service s new_status st).1)]))
                (update_subscription service s new_status st).2
                [EvGetSubscription sid;
                 EvGetCollection (R11.collection_name request);
                 EvUpdateSubscription s new_status;
                 EvGetPollingServices collection])).
Proof.
  intros Hact Hsid Hid Hs.
  assert (R11.action request ∈ ACT_TYPES_11) as Hlegal
    by (apply pause_resume_cases in Hact as [-> | ->]; compute_done).
  split_and!.
  - intros Hcoll.
    destruct (handle_message11_run service helpers request st)
      as (subscription & Hout & ->).
    rewrite Hsid in *. rewrite find_subscription_Some in * by done.
    simpl in Hout. rewrite Hs in Hout. injection Hout as <-.
    rewrite validate_request11_found by (by rewrite ?Hsid).
    cbn [outcome events]. cbn zeta. by rewrite Hcoll.
  - intros collection Hcoll Hother.
    destruct (handle_message11_run service helpers request st)
      as (subscription & Hout & ->).
    rewrite Hsid in *. rewrite find_subscription_Some in * by done.
    simpl in Hout. rewrite Hs in Hout. injection Hout as <-.
    rewrite validate_request11_found by (by rewrite ?Hsid).
    cbn [outcome events]. cbn zeta.
    by rewrite Hcoll, other_collection_differs.
  - intros collection Hcoll Hsame. split.
    + intros Hcase.
      rewrite (handle_message11_transition request sid s collection st);
        try done.
      destruct Hcase as [[-> Hst] | [-> Hst]]; cbn zeta.
      * rewrite call_action_pause, action_pause_run.
        by rewrite bool_decide_eq_true_2.
      * rewrite call_action_resume, action_resume_run.
        by rewrite bool_decide_eq_true_2.
    + intros new_status Hcase.
      rewrite (handle_message11_transition request sid s collection st);
        try done.
      destruct Hcase as [(-> & Hst & ->) | (-> & Hst & ->)]; cbn zeta.
      * rewrite call_action_pause, action_pause_run.
        by rewrite bool_decide_eq_false_2.
      * rewrite call_action_resume, action_resume_run.
        rewrite bool_decide_eq_false_2; [done|]. by intros Hne.
Qed.
End PauseResume.

(** ** The two versions side by side *)

Local Ltac same_signal := intros ?; split; intros [= <-]; reflexivity.

Section Versions.
Context {Store : Type}.
Variable service : Service Store.
Variable helpers : Helpers.

(** What version-10 validation has established when it returns. *)
Lemma validate_request10_Return (request : R10.t) (st : Store) :
  outcome (validate_request10 request st) = Return () →
  R10.action request ∈ ACT_TYPES_10
  ∧ (R10.action request = ACT_UNSUBSCRIBE →
     truthy (R10.subscription_id request) = true).
Proof.
  unfold validate_request10.
  destruct (str_in (R10.action request) ACT_TYPES_10) eqn:Hlegal; simpl;
    [|done].
  apply str_in_spec in Hlegal.
  destruct (String.eqb_spec (R10.action request) ACT_UNSUBSCRIBE)
    as [Hu|Hu]; simpl; [|done].
  by destruct (truthy (R10.subscription_id request)).
Qed.

(** X12.  What version-10 validation accepts, version-11 validation does
    not answer with BAD_MESSAGE: for the same action and subscription id
    it returns, or it raises NOT_FOUND, and that only for a STATUS with an
    id whose subscription was not found. *)
Theorem version10_legal_is_version11_legal (request10 : R10.t)
    (request11 : R11.t) (st : Store) :
  R11.action request11 = R10.action request10 →
  R11.subscription_id request11 = R10.subscription_id request10 →
  outcome (validate_request10 request10 st) = Return () →
  ∀ subscription,
    outcome (validate_request11 request11 subscription st) = Return ()
    ∨ (R11.action request11 = ACT_STATUS
       ∧ subscription = None
       ∧ truthy (R11.subscription_id request11) = true
       ∧ outcome (validate_request11 request11 subscription st)
         = Raise (not_found
                    (detail_of_option (R11.subscription_id request11))
                    (R11.message_id request11))).
Proof.
  intros Hact Hsid Hval subscription.
  apply validate_request10_Return in Hval as [Hlegal Hid].
  rewrite <- Hact, <- Hsid in *.
  apply act_types_10_cases in Hlegal as [Ha | [Ha | Ha]].
  - left. by rewrite validate_request11_subscribe.
  - left. by rewrite validate_request11_unsubscribe by auto.
  - destruct subscription as [s|].
    + left. unfold validate_request11. rewrite Ha. simpl.
      by destruct (truthy _).
    + destruct (truthy (R11.subscription_id request11)) eqn:Hid'.
      * right. split_and!; try done.
        rewrite validate_request11_unknown; [done | | done].
        rewrite Ha. compute_done.
      * left. by rewrite validate_request11_status_all.
Qed.

(** X13.  UNSUBSCRIBE is handled alike by the two versions.  For requests
    with the same message id, name and subscription id, the two handlers
    raise the same signals, ask for the same change of the store and leave
    the same store. *)
Theorem unsubscribe_alike_in_both_versions (request10 : R10.t)
    (request11 : R11.t) (st : Store) :
  R10.action request10 = ACT_UNSUBSCRIBE →
  R11.action request11 = ACT_UNSUBSCRIBE →
  R11.message_id request11 = R10.message_id request10 →
  R11.collection_name request11 = R10.feed_name request10 →
  R11.subscription_id request11 = R10.subscription_id request10 →
  store (handle_message11 service helpers request11 st)
  = store (handle_message10 service helpers request10 st)
  ∧ writes (events (handle_message11 service helpers request11 st))
    = writes (events (handle_message10 service helpers request10 st))
  ∧ ∀ e,
      outcome (handle_message11 service helpers request11 st) = Raise e
      ↔ outcome (handle_message10 service helpers request10 st) = Raise e.
Proof.
  intros Ha10 Ha11 Hmid Hname Hsid.
  destruct (handle_message11_run service helpers request11 st)
    as (subscription & Hout & ->).
  destruct (handle_message10_run service helpers request10 st)
    as (subscription' & Hout' & ->).
  rewrite Hsid in *. rewrite Hout in Hout'. injection Hout' as <-.
  pose proof (find_subscription_writes service
                (R10.subscription_id request10) st) as Hfind.
  assert (∀ evs,
            writes (events (find_subscription service
                              (R10.subscription_id request10) st) ++ evs)%list
            = writes evs) as Hpre.
  { intros evs. by rewrite writes_app, Hfind. }
  assert (∀ evs,
            writes (EvGetCollection (R10.feed_name request10)
                    :: events (find_subscription service
                                 (R10.subscription_id request10) st)
                    ++ evs)%list
            = writes evs) as Hpre'.
  { intros evs. change (writes (?x :: ?l)) with (writes l). apply Hpre. }
  destruct (truthy (R10.subscription_id request10)) eqn:Hid.
  - rewrite validate_request11_unsubscribe by (by rewrite ?Hsid).
    rewrite validate_request10_legal;
      [| rewrite Ha10; compute_done | done].
    cbn [outcome events]. cbn zeta. rewrite Hname, Hmid.
    destruct (get_collection service (R10.feed_name request10) st)
      as [collection|].
    2: { cbn [store events outcome]. split_and!; [done | apply Hpre | same_signal]. }
    destruct (other_collection subscription collection).
    { cbn [store events outcome]. split_and!; [done | | same_signal].
      rewrite Hpre, <- (app_nil_r (events _)), Hpre'. done. }
    rewrite Ha10, Ha11, call_action_unsubscribe.
    destruct subscription as [s|].
    + rewrite !action_unsubscribe_known. cbn [outcome store events].
      split_and!; [done | | same_signal].
      rewrite Hpre. cbn [app]. by rewrite Hpre'.
    + rewrite !action_unsubscribe_unknown. cbn [outcome store events].
      split_and!; [done | | same_signal].
      rewrite Hpre. cbn [app]. by rewrite Hpre'.
  - rewrite validate_request11_no_id;
      [| rewrite Ha11; compute_done | by rewrite Hsid].
    rewrite validate_request10_no_id by done.
    cbn [outcome store events]. rewrite Ha11, Hmid.
    split_and!; [done | | same_signal].
    by rewrite find_subscription_falsy.
Qed.
End Versions.

(** ** The further properties on the in-memory service *)

Lemma signal_leaves_store_unchanged_witness :
  store (run11 (request11 ACT_SUBSCRIBE "X" None ["C"]) subscribed_store)
  = subscribed_store
  ∧ writes (events (run10 (request10 ACT_STATUS "Z" None) subscribed_store))
    = [].
Proof.
  split.
  - apply (proj1 (signal_leaves_store_unchanged (service None) helpers
                    subscribed_store)
             (request11 ACT_SUBSCRIBE "X" None ["C"])
             (unsupported_content_binding ["A"; "B"] "request")).
    reflexivity.
  - apply (proj2 (signal_leaves_store_unchanged (service None) helpers
                    subscribed_store)
             (request10 ACT_STATUS "Z" None)
             (E.make ST_NOT_FOUND
                (Some "The collection you requested was not found") "request"
                (Some {[ SD_ITEM := DStr "Z" ]}))).
    reflexivity.
Defined.

Lemma handlers_never_crash_witness :
  is_Some (getitem (ACTIONS (service None) helpers) ACT_RESUME)
  ∧ ACT_STATUS ∈ ACT_TYPES_11.
Proof.
  split.
  - apply (proj1 (handlers_never_crash (service None) helpers)).
    compute_done.
  - apply (proj1 (proj2 (handlers_never_crash (service None) helpers))).
    compute_done.
Defined.

Lemma validation_accepts_exactly_witness :
  outcome (validate_request11
             (request11 ACT_UNSUBSCRIBE "X" (Some "subscription-0") [])
             (Some subscription_0) subscribed_store)
  = Return ()
  ∧ ACT_UNSUBSCRIBE ∈ ACT_TYPES_10.
Proof.
  split.
  - apply (proj1 (validation_accepts_exactly subscribed_store)
             (request11 ACT_UNSUBSCRIBE "X" (Some "subscription-0") [])
             (Some subscription_0)).
    split_and!; [compute_done | reflexivity | discriminate].
  - apply (proj2 (validation_accepts_exactly subscribed_store)
             (request10 ACT_UNSUBSCRIBE "X" (Some "subscription-0"))).
    reflexivity.
Defined.

Lemma response_answers_request_witness :
  (∃ collection evs,
     get_collection (service None) "X" subscribed_store = Some collection
     ∧ "response" = generate_id helpers
     ∧ "request" = "request"
     ∧ "X" = CollectionEntity.name collection
     ∧ None = subscription_message (service None)
     ∧ events (run11 (request11 ACT_STATUS "X" None []) subscribed_store)
       = (evs ++ [EvGetPollingServices collection])%list
     ∧ ∀ c, EvGetPollingServices c ∉ evs)
  ∧ ∃ response,
      outcome (run10 (request10 ACT_STATUS "X" None) subscribed_store)
      = Return response.
Proof.
  split.
  - apply (proj1 (response_answers_request (service None) helpers
                    subscribed_store)
             (request11 ACT_STATUS "X" None [])
             (response11 (service None) helpers
                (request11 ACT_STATUS "X" None []) collection_X
                [subscription_to_subscription_instance helpers subscription_0
                   (get_polling_services (service None) collection_X
                      subscribed_store) 11
                   (SubscriptionEntity.params subscription_0)])).
    vm_compute. reflexivity.
  - apply (proj2 (proj2 (proj2 (response_answers_request (service None)
             helpers subscribed_store)))
             (request10 ACT_STATUS "X" None) collection_X).
    vm_compute. repeat constructor.
Defined.

Lemma status_lists_all_subscriptions_witness :
  run11 (request11 ACT_STATUS "Y" None []) empty_store
  = Build_Run
      (Return (response11 (service None) helpers
                 (request11 ACT_STATUS "Y" None []) collection_Y []))
      empty_store
      [EvGetCollection "Y"; EvGetSubscriptions;
       EvGetPollingServices collection_Y]
  ∧ events (run10 (request10 ACT_STATUS "Y" None) subscribed_store)
    = [EvGetCollection "Y"; EvGetSubscriptions;
       EvGetPollingServices collection_Y]
  ∧ events (run10 (request10 ACT_STATUS "Y" (Some "unknown"))
              subscribed_store)
    = [EvGetCollection "Y"; EvGetSubscription "unknown"; EvGetSubscriptions;
       EvGetPollingServices collection_Y]
  ∧ run11 (request11 ACT_STATUS "Y" (Some "unknown") []) subscribed_store
    = Build_Run (Raise (not_found (DStr "unknown") "request"))
        subscribed_store [EvGetSubscription "unknown"]
  ∧ events (run11 (request11 ACT_STATUS "Z" None []) subscribed_store)
    = [EvGetCollection "Z"]
  ∧ events (run10 (request10 ACT_STATUS "Z" (Some "unknown"))
              subscribed_store)
    = [EvGetCollection "Z"].
Proof.
  pose proof (status_lists_all_subscriptions (service None) helpers
                subscribed_store) as (_ & H10 & H10u & H11u & H11z & H10z).
  split_and!.
  - apply (proj1 (status_lists_all_subscriptions (service None) helpers
                    empty_store)); reflexivity.
  - unfold run10.
    by rewrite (H10 (request10 ACT_STATUS "Y" None) collection_Y
                  eq_refl eq_refl eq_refl).
  - unfold run10.
    by rewrite (H10u (request10 ACT_STATUS "Y" (Some "unknown")) "unknown"
                  collection_Y eq_refl eq_refl eq_refl eq_refl eq_refl).
  - apply H11u; reflexivity.
  - unfold run11.
    by rewrite (H11z (request11 ACT_STATUS "Z" None [])
                  eq_refl eq_refl eq_refl).
  - unfold run10.
    by rewrite (H10z (request10 ACT_STATUS "Z" (Some "unknown"))
                  eq_refl eq_refl).
Defined.

Lemma unknown_collection_not_found_witness :
  run11 (request11 ACT_PAUSE "Z" (Some "subscription-0") []) subscribed_store
  = Build_Run
      (Raise (E.make ST_NOT_FOUND
                (Some "The collection you requested was not found") "request"
                (Some {[ SD_ITEM := DStr "Z" ]})))
      subscribed_store
      [EvGetSubscription "subscription-0"; EvGetCollection "Z"]
  ∧ run10 (request10 ACT_UNSUBSCRIBE "Z" (Some "subscription-0"))
      subscribed_store
    = Build_Run
        (Raise (E.make ST_NOT_FOUND
                  (Some "The collection you requested was not found") "request"
                  (Some {[ SD_ITEM := DStr "Z" ]})))
        subscribed_store [EvGetCollection "Z"].
Proof.
  split.
  - apply (proj1 (unknown_collection_not_found (service None) helpers
                    subscribed_store)
             (request11 ACT_PAUSE "Z" (Some "subscription-0") [])
             (Some subscription_0)); reflexivity.
  - apply (proj2 (unknown_collection_not_found (service None) helpers
                    subscribed_store)); reflexivity.
Defined.

Lemma subscribe_creates_a_subscription_witness :
  writes (events (run10 (request10 ACT_SUBSCRIBE "X" (Some "subscription-0"))
                    subscribed_store))
  = [EvCreateSubscription (new_subscription collection_X None [])]
  ∧ run10 (request10 ACT_SUBSCRIBE "Y" (Some "subscription-0"))
      subscribed_store
    = Build_Run (Raise (not_found (DStr "Y") "request")) subscribed_store
        [EvGetCollection "Y"; EvGetSubscription "subscription-0"]
  ∧ writes (events (run11 (request11 ACT_SUBSCRIBE "X" None ["B"; "C"])
                      empty_store))
    = [EvCreateSubscription
         (new_subscription collection_X (Some "FULL") ["B"])]
  ∧ run11 (request11 ACT_SUBSCRIBE "X" None ["C"]) empty_store
    = Build_Run (Raise (unsupported_content_binding ["A"; "B"] "request"))
        empty_store [EvGetCollection "X"]
  ∧ run11 (request11 ACT_SUBSCRIBE "Y" (Some "subscription-0") [])
      subscribed_store
    = Build_Run (Raise (not_found (DStr "Y") "request")) subscribed_store
        [EvGetSubscription "subscription-0"; EvGetCollection "Y"].
Proof.
  split_and!.
  - unfold run10.
    rewrite (proj2 (proj1 (subscribe_creates_a_subscription (service None)
               helpers collection_X subscribed_store)
               (request10 ACT_SUBSCRIBE "X" (Some "subscription-0"))
               (Some subscription_0) eq_refl eq_refl eq_refl) eq_refl).
    reflexivity.
  - apply (proj1 (proj1 (subscribe_creates_a_subscription (service None)
             helpers collection_Y subscribed_store)
             (request10 ACT_SUBSCRIBE "Y" (Some "subscription-0"))
             (Some subscription_0) eq_refl eq_refl eq_refl) eq_refl).
  - unfold run11.
    rewrite (proj2 (proj2 (proj2 (subscribe_creates_a_subscription
               (service None) helpers collection_X empty_store)
               (request11 ACT_SUBSCRIBE "X" None ["B"; "C"]) None
               eq_refl eq_refl eq_refl)) ["B"] eq_refl).
    + reflexivity.
    + right. split_and!; [discriminate | reflexivity |].
      right. discriminate.
  - apply (proj1 (proj2 (proj2 (subscribe_creates_a_subscription
             (service None) helpers collection_X empty_store)
             (request11 ACT_SUBSCRIBE "X" None ["C"]) None
             eq_refl eq_refl eq_refl)) eq_refl);
      [discriminate | discriminate | reflexivity].
  - apply (proj1 (proj2 (subscribe_creates_a_subscription (service None)
             helpers collection_Y subscribed_store)
             (request11 ACT_SUBSCRIBE "Y" (Some "subscription-0") [])
             (Some subscription_0) eq_refl eq_refl eq_refl) eq_refl).
Defined.

Lemma signals_have_their_details_witness :
  (E.status_type (not_found (DStr "Y") "request") = ST_BAD_MESSAGE
   ∧ is_Some (E.message (not_found (DStr "Y") "request"))
   ∧ E.status_details (not_found (DStr "Y") "request") = None)
  ∨ (E.status_type (not_found (DStr "Y") "request") = ST_NOT_FOUND
     ∧ E.status_details (not_found (DStr "Y") "request")
       = Some {[ SD_ITEM := DStr "Y" ]}).
Proof.
  apply (proj2 (signals_have_their_details (service None) helpers
                  subscribed_store)
           (request10 ACT_UNSUBSCRIBE "Y" (Some "subscription-0"))
           (not_found (DStr "Y") "request")).
  reflexivity.
Defined.

Lemma pause_and_resume_requests_witness :
  run11 (request11 ACT_PAUSE "X" (Some "subscription-0") []) paused_store
  = Build_Run
      (Return
         (response11 (service None) helpers
            (request11 ACT_PAUSE "X" (Some "subscription-0") []) collection_X
            [subscription_to_subscription_instance helpers paused_0
               (get_polling_services (service None) collection_X paused_store)
               11 (SubscriptionEntity.params paused_0)]))
      paused_store
      [EvGetSubscription "subscription-0"; EvGetCollection "X";
       EvGetPollingServices collection_X]
  ∧ events (run11 (request11 ACT_RESUME "X" (Some "subscription-0") [])
              paused_store)
    = [EvGetSubscription "subscription-0"; EvGetCollection "X";
       EvUpdateSubscription paused_0 ACTIVE;
       EvGetPollingServices collection_X]
  ∧ run11 (request11 ACT_PAUSE "Y" (Some "subscription-0") []) paused_store
    = Build_Run (Raise (not_found (DStr "Y") "request")) paused_store
        [EvGetSubscription "subscription-0"; EvGetCollection "Y"]
  ∧ events (run11 (request11 ACT_PAUSE "Z" (Some "subscription-0") [])
              paused_store)
    = [EvGetSubscription "subscription-0"; EvGetCollection "Z"].
Proof.
  assert ("PAUSE" ∈ [ACT_PAUSE; ACT_RESUME]) as Hp by compute_done.
  assert ("RESUME" ∈ [ACT_PAUSE; ACT_RESUME]) as Hr by compute_done.
  split_and!.
  - apply (proj1 (proj2 (proj2 (pause_and_resume_requests (service None)
             helpers (request11 ACT_PAUSE "X" (Some "subscription-0") [])
             "subscription-0" paused_0 paused_store
             Hp eq_refl eq_refl eq_refl)) collection_X eq_refl eq_refl)).
    left. split; reflexivity.
  - unfold run11.
    rewrite (proj2 (proj2 (proj2 (pause_and_resume_requests (service None)
               helpers (request11 ACT_RESUME "X" (Some "subscription-0") [])
               "subscription-0" paused_0 paused_store
               Hr eq_refl eq_refl eq_refl)) collection_X eq_refl eq_refl)
               ACTIVE).
    + reflexivity.
    + right. split_and!; reflexivity.
  - apply (proj1 (proj2 (pause_and_resume_requests (service None)
             helpers (request11 ACT_PAUSE "Y" (Some "subscription-0") [])
             "subscription-0" paused_0 paused_store
             Hp eq_refl eq_refl eq_refl)) collection_Y);
      [reflexivity | discriminate].
  - unfold run11.
    rewrite (proj1 (pause_and_resume_requests (service None)
               helpers (request11 ACT_PAUSE "Z" (Some "subscription-0") [])
               "subscription-0" paused_0 paused_store
               Hp eq_refl eq_refl eq_refl) eq_refl).
    reflexivity.
Defined.

Lemma version10_legal_is_version11_legal_witness :
  outcome (validate_request11
             (request11 ACT_STATUS "X" (Some "unknown") []) None
             subscribed_store) = Return ()
  ∨ (ACT_STATUS = ACT_STATUS
     ∧ @None SubscriptionEntity.t = None
     ∧ truthy (Some "unknown") = true
     ∧ outcome (validate_request11
                  (request11 ACT_STATUS "X" (Some "unknown") []) None
                  subscribed_store)
       = Raise (not_found (DStr "unknown") "request")).
Proof.
  apply (version10_legal_is_version11_legal
           (request10 ACT_STATUS "X" (Some "unknown"))
           (request11 ACT_STATUS "X" (Some "unknown") []) subscribed_store
           eq_refl eq_refl eq_refl None).
Defined.

Lemma unsubscribe_alike_in_both_versions_witness :
  store (run11 (request11 ACT_UNSUBSCRIBE "X" (Some "subscription-0") [])
           subscribed_store)
  = store (run10 (request10 ACT_UNSUBSCRIBE "X" (Some "subscription-0"))
             subscribed_store)
  ∧ writes (events (run11 (request11 ACT_UNSUBSCRIBE "X"
                             (Some "subscription-0") []) subscribed_store))
    = writes (events (run10 (request10 ACT_UNSUBSCRIBE "X"
                               (Some "subscription-0")) subscribed_store))
  ∧ ∀ e,
      outcome (run11 (request11 ACT_UNSUBSCRIBE "X" (Some "subscription-0") [])
                 subscribed_store) = Raise e
      ↔ outcome (run10 (request10 ACT_UNSUBSCRIBE "X" (Some "subscription-0"))
                   subscribed_store) = Raise e.
Proof.
  apply (unsubscribe_alike_in_both_versions (service None) helpers
           (request10 ACT_UNSUBSCRIBE "X" (Some "subscription-0"))
           (request11 ACT_UNSUBSCRIBE "X" (Some "subscription-0") [])
           subscribed_store eq_refl eq_refl eq_refl eq_refl eq_refl).
Defined.
